(** * MeetingIntel backend: the brief generator and its HTTP endpoint

    A shallow embedding of [research_service.py] and of the
    [/api/generate-brief] handler of [main.py], with the properties of
    the request/response contract and of its degradation path.

    Modelling conventions.
    - A Python [str] is a Rocq [string], one character per code point.
      Whitespace classification and case mapping are the ones Python
      applies to ASCII code points; the Unicode tables for code points
      above 127 are not modelled, so the model is exact on ASCII text.
    - A Python [int] is a [Z]: [str.find] answers [-1] when the needle is
      absent and slices accept negative bounds.
    - A Python [dict] with string keys is a [gmap string _]; Python
      compares dicts extensionally, as [gmap] does.
    - Code that may raise runs in the [outcome] monad; [try]/[except
      Exception] is [try_except].  An [exn] stands for an instance of a
      subclass of [Exception].
    - The LLM provider, the JSON decoder of the standard library and the
      clock are the environment: the first two are parameters of the
      development, clock readings are passed explicitly.
    - [generate_brief] is the handler function; [post_generate_brief] is
      the route, which also applies the declared response model to what
      the handler returns. *)

From Stdlib Require Import ZArith String Ascii List Lia.
From stdpp Require Import base option gmap strings.

Local Open Scope Z_scope.

(** ** Exceptions and the outcome monad *)

Record exn : Type := mk_exn { exn_class : string; exn_str : string }.

Definition IndexError (msg : string) : exn := mk_exn "IndexError" msg.
Definition TypeError (msg : string) : exn := mk_exn "TypeError" msg.
Definition JSONDecodeError (msg : string) : exn := mk_exn "JSONDecodeError" msg.

Inductive outcome (A : Type) : Type :=
  | Returns (a : A)
  | Raises (e : exn).

Arguments Returns {A} a.
Arguments Raises {A} e.

(** Sequencing stops at the first exception; stdpp's [x ← m; k] is the
    notation for it. *)
#[global] Instance outcome_ret : MRet outcome := fun A a => Returns a.

#[global] Instance outcome_bind : MBind outcome := fun A B k m =>
  match m with
  | Returns a => k a
  | Raises e => Raises e
  end.

(** [try: m except Exception as e: handler e] *)
Definition try_except {A : Type} (m : outcome A) (handler : exn -> outcome A) : outcome A :=
  match m with
  | Returns a => Returns a
  | Raises e => handler e
  end.

(** ** Python string primitives *)

Module Py.

Definition len (s : string) : Z := Z.of_nat (String.length s).

(** [s.find(sub, start)] for [start >= 0]: the lowest index at or after
    [start] where [sub] occurs, [-1] when there is none. *)
Definition find (s sub : string) (start : nat) : Z :=
  match String.index start sub s with
  | Some i => Z.of_nat i
  | None => -1
  end.

(** [sub in s] *)
Definition contains (sub s : string) : bool :=
  match String.index 0 sub s with
  | Some _ => true
  | None => false
  end.

(** Bound of a slice: a negative bound counts from the end, and the
    result is clamped to [0 .. len]. *)
Definition slice_bound (n i : Z) : Z :=
  if i <? 0 then Z.max 0 (i + n) else Z.min i n.

(** [s[a:b]] *)
Definition slice (s : string) (a b : Z) : string :=
  let lo := slice_bound (len s) a in
  let hi := slice_bound (len s) b in
  if lo <? hi then String.substring (Z.to_nat lo) (Z.to_nat (hi - lo)) s
  else EmptyString.

(** [c.isspace()] on ASCII: tab, line feed, vertical tab, form feed,
    carriage return, the four separators 0x1c-0x1f, and space. *)
Definition isspace (c : ascii) : bool :=
  let n := nat_of_ascii c in
  (((9 <=? n) && (n <=? 13)) || ((28 <=? n) && (n <=? 32)))%nat.

Fixpoint lstrip (s : string) : string :=
  match s with
  | EmptyString => EmptyString
  | String c s' => if isspace c then lstrip s' else s
  end.

Fixpoint rstrip (s : string) : string :=
  match s with
  | EmptyString => EmptyString
  | String c s' =>
      match rstrip s' with
      | EmptyString => if isspace c then EmptyString else String c EmptyString
      | r => String c r
      end
  end.

(** [s.strip()] *)
Definition strip (s : string) : string := rstrip (lstrip s).

(** [s.split(sep)] for a separator of one character: never empty. *)
Fixpoint split (s : string) (sep : ascii) : list string :=
  match s with
  | EmptyString => [EmptyString]
  | String c s' =>
      if Ascii.eqb c sep then EmptyString :: split s' sep
      else match split s' sep with
           | h :: t => String c h :: t
           | [] => [String c EmptyString]
           end
  end.

Definition is_lower (c : ascii) : bool :=
  let n := nat_of_ascii c in ((97 <=? n) && (n <=? 122))%nat.

Definition is_upper (c : ascii) : bool :=
  let n := nat_of_ascii c in ((65 <=? n) && (n <=? 90))%nat.

Definition upper_char (c : ascii) : ascii :=
  if is_lower c then ascii_of_nat (nat_of_ascii c - 32) else c.

Definition lower_char (c : ascii) : ascii :=
  if is_upper c then ascii_of_nat (nat_of_ascii c + 32) else c.

Fixpoint lower (s : string) : string :=
  match s with
  | EmptyString => EmptyString
  | String c s' => String (lower_char c) (lower s')
  end.

(** [s.capitalize()]: the first character upper-cased, every other
    character lower-cased. *)
Definition capitalize (s : string) : string :=
  match s with
  | EmptyString => EmptyString
  | String c s' => String (upper_char c) (lower s')
  end.

(** [l[i]] for [i >= 0] *)
Definition getitem {A : Type} (l : list A) (i : nat) : outcome A :=
  match nth_error l i with
  | Some x => Returns x
  | None => Raises (IndexError "list index out of range")
  end.

(** [sep.join(l)] *)
Fixpoint join (sep : string) (l : list string) : string :=
  match l with
  | [] => EmptyString
  | [x] => x
  | x :: rest => x +:+ sep +:+ join sep rest
  end.

End Py.

(** ** Values

    What [json.loads] can return, and what the generator hands to the
    endpoint.  A float keeps its lexeme: no arithmetic is done on it. *)

#[warnings="-register-all"]
Inductive pyval : Type :=
  | PNone
  | PBool (b : bool)
  | PInt (z : Z)
  | PFloat (lexeme : string)
  | PStr (s : string)
  | PList (l : list pyval)
  | PDict (d : gmap string pyval).

(** A dict display [{k1: v1, ..., kn: vn}] with distinct keys. *)
Definition dict (items : list (string * pyval)) : pyval :=
  PDict (list_to_map items).

(** [obj[key] = v], with the [TypeError] Python raises when [obj] is not
    a dict. *)
Definition setitem (obj : pyval) (key : string) (v : pyval) : outcome pyval :=
  match obj with
  | PDict d => Returns (PDict (<[key := v]> d))
  | PList _ => Raises (TypeError "list indices must be integers or slices, not str")
  | PStr _ => Raises (TypeError "'str' object does not support item assignment")
  | PInt _ => Raises (TypeError "'int' object does not support item assignment")
  | PFloat _ => Raises (TypeError "'float' object does not support item assignment")
  | PBool _ => Raises (TypeError "'bool' object does not support item assignment")
  | PNone => Raises (TypeError "'NoneType' object does not support item assignment")
  end.

(** ** research_service.py *)

(** An attendee as the endpoint passes it: a dict with exactly the keys
    [email] and [name], so that neither lookup can fail. *)
Record Attendee : Type := mk_attendee { email : string; name : string }.

(** A block of the provider's reply: [block.type], and [block.text],
    which is read for text blocks only. *)
Record content_block : Type := mk_block { block_type : string; block_text : string }.

Definition dq : string := String (ascii_of_nat 34) EmptyString.
Definition nl : string := String (ascii_of_nat 10) EmptyString.

Definition extract_company_from_email (email : string) : string :=
  match
    domain ← Py.getitem (Py.split email "@") 1;
    company ← Py.getitem (Py.split domain ".") 0;
    mret (Py.capitalize company)
  with
  | Returns company => company
  | Raises _ => "Company"
  end.

(** One element of the list comprehension of the fallback brief. *)
Definition fallback_profile (a : Attendee) : pyval :=
  dict [ ("name", PStr (name a));
         ("email", PStr (email a));
         ("role", PStr "Role not yet researched");
         ("company", PStr (extract_company_from_email (email a)));
         ("background", PStr "Research in progress...");
         ("recent_activity", PStr EmptyString);
         ("key_fact", PStr EmptyString) ].

(** [now] is the reading of [datetime.now().isoformat()].  The entries of
    the dict display are evaluated in order, so [attendees[0]] is reached
    after the comprehension and may raise [IndexError]. *)
Definition generate_fallback_brief (now : string) (attendees : list Attendee) : outcome pyval :=
  let profiles := map fallback_profile attendees in
  first ← Py.getitem attendees 0;
  mret (dict
    [ ("attendees", PList profiles);
      ("conversation_starters", PList
         [ PStr "Thank you for taking the time to meet today";
           PStr ("I'm excited to learn more about " +:+ extract_company_from_email (email first));
           PStr "What are your top priorities for this quarter?" ]);
      ("questions_to_ask", PList
         [ PStr "What challenges are you currently facing?";
           PStr "What does success look like for you?";
           PStr "How can we best support your goals?" ]);
      ("strategy", PStr "Focus on building rapport, understanding their needs, and exploring potential collaboration opportunities.");
      ("generated_at", PStr now) ]).

(** [brief_text] after the loop over [response.content]. *)
Definition brief_text (content : list content_block) : string :=
  fold_left
    (fun acc block => if String.eqb (block_type block) "text" then acc +:+ block_text block else acc)
    content EmptyString.

(** [json_text] as computed from [brief_text] by the three branches. *)
Definition json_text (brief_text : string) : string :=
  if Py.contains "```json" brief_text then
    let json_start := Py.find brief_text "```json" 0 + 7 in
    let json_end := Py.find brief_text "```" (Z.to_nat json_start) in
    Py.strip (Py.slice brief_text json_start json_end)
  else if Py.contains "```" brief_text then
    let json_start := Py.find brief_text "```" 0 + 3 in
    let json_end := Py.find brief_text "```" (Z.to_nat json_start) in
    Py.strip (Py.slice brief_text json_start json_end)
  else
    Py.strip brief_text.

Definition attendee_info (attendees : list Attendee) : string :=
  Py.join nl (map (fun a => "- " +:+ name a +:+ " (" +:+ email a +:+ ")") attendees).

(** The research prompt, line by line.  [quoted s] is [s] between double
    quotes; [now] is the clock reading interpolated in [generated_at]. *)
Definition quoted (s : string) : string := dq +:+ s +:+ dq.

Definition prompt_field (indent key value : string) (comma : bool) : string :=
  indent +:+ quoted key +:+ ": " +:+ quoted value +:+ (if comma then "," else EmptyString).

Definition prompt_lines (meeting_title meeting_time info now : string) : list string :=
  [ "You are a professional meeting preparation assistant. Generate a comprehensive brief for this upcoming meeting:";
    EmptyString;
    "**Meeting Details:**";
    "- Title: " +:+ meeting_title;
    "- Time: " +:+ meeting_time;
    "- Attendees:";
    info;
    EmptyString;
    "**Your Task:**";
    "1. Research each attendee (use web search to find their LinkedIn, recent activity, background)";
    "2. Research the companies they work for (extract domain from email)";
    "3. Generate actionable meeting insights";
    EmptyString;
    "**Important Guidelines:**";
    "- Focus on ACTIONABLE intelligence (not just facts)";
    "- Provide conversation starters that show you did your homework";
    "- Suggest questions that demonstrate genuine interest";
    "- Be professional but personable";
    EmptyString;
    "**Output Format (JSON):**";
    "{";
    "    " +:+ quoted "attendees" +:+ ": [";
    "        {";
    prompt_field "            " "name" "..." true;
    prompt_field "            " "email" "..." true;
    prompt_field "            " "role" "..." true;
    prompt_field "            " "company" "..." true;
    prompt_field "            " "background" "Brief 2-3 sentence summary" true;
    prompt_field "            " "recent_activity" "What they've been posting/doing recently" true;
    prompt_field "            " "key_fact" "One interesting fact to mention" false;
    "        }";
    "    ],";
    "    " +:+ quoted "conversation_starters" +:+ ": [";
    "        " +:+ quoted "Specific, personalized conversation starter that references their work/interests" +:+ ",";
    "        " +:+ quoted "Another one..." +:+ ",";
    "        " +:+ quoted "...";
    "    ],";
    "    " +:+ quoted "questions_to_ask" +:+ ": [";
    "        " +:+ quoted "Thoughtful question about their work" +:+ ",";
    "        " +:+ quoted "Another..." +:+ ",";
    "        " +:+ quoted "...";
    "    ],";
    prompt_field "    " "strategy" "2-3 sentence meeting strategy (what to emphasize, how to position yourself, key themes)" true;
    prompt_field "    " "generated_at" now false;
    "}";
    EmptyString;
    "Use web search to find current, accurate information. Be thorough but concise.";
    EmptyString ].

Definition prompt (meeting_title meeting_time info now : string) : string :=
  Py.join nl (prompt_lines meeting_title meeting_time info now).

Section Generator.

(** [client.messages.create(...)] as a function of the prompt, the only
    argument that varies: the blocks of [response.content], or the
    exception of the call. *)
Variable messages_create : string -> outcome (list content_block).

(** [json.loads] *)
Variable json_loads : string -> outcome pyval.

(** The body of the [try]. *)
Definition research (prompt : string) : outcome pyval :=
  content ← messages_create prompt;
  json_loads (json_text (brief_text content)).

(** [t_prompt] and [t_fallback] are the readings of the clock while the
    prompt is built and, if it comes to that, while the fallback is. *)
Definition generate_meeting_brief
    (meeting_title meeting_time : string) (attendees : list Attendee)
    (t_prompt t_fallback : string) : outcome pyval :=
  let info := attendee_info attendees in
  let prompt := prompt meeting_title meeting_time info t_prompt in
  try_except (research prompt)
    (fun e => generate_fallback_brief t_fallback attendees).

(** ** main.py *)

Record BriefRequest : Type := mk_request {
  meeting_id : string;
  meeting_title : string;
  meeting_time : string;
  attendees : list Attendee
}.

(** What the handler hands back to the framework: the value it returns
    or the [HTTPException] it raises. *)
Inductive handler_result : Type :=
  | Response (body : pyval)
  | HTTPException (status_code : Z) (detail : string).

(** The body of the handler's [try]. *)
Definition brief_with_id (request : BriefRequest) (t_prompt t_fallback : string) : outcome pyval :=
  brief ← generate_meeting_brief (meeting_title request) (meeting_time request)
            (map (fun a => mk_attendee (email a) (name a)) (attendees request))
            t_prompt t_fallback;
  setitem brief "meeting_id" (PStr (meeting_id request)).

Definition generate_brief (request : BriefRequest) (t_prompt t_fallback : string) : handler_result :=
  match brief_with_id request t_prompt t_fallback with
  | Returns brief => Response brief
  | Raises e => HTTPException 500 ("Error generating brief: " +:+ exn_str e)
  end.

End Generator.

(** ** A reference decoder

    The theorems below hold for any decoder.  To run the generator on
    concrete replies, [Json.loads] decodes the fragment of JSON made of
    objects, arrays, strings with the one-character escapes, integers,
    [true], [false] and [null], and rejects everything else.  The text of
    the error is not the one of Python's decoder. *)

Module Json.

Definition is_ws (c : ascii) : bool :=
  let n := nat_of_ascii c in
  ((n =? 32) || (n =? 9) || (n =? 10) || (n =? 13))%nat.

Fixpoint skip_ws (s : string) : string :=
  match s with
  | String c s' => if is_ws c then skip_ws s' else s
  | EmptyString => EmptyString
  end.

Definition is_digit (c : ascii) : bool :=
  let n := nat_of_ascii c in ((48 <=? n) && (n <=? 57))%nat.

Fixpoint digits (s : string) (acc : Z) : Z * string :=
  match s with
  | String c s' =>
      if is_digit c then digits s' (10 * acc + Z.of_nat (nat_of_ascii c - 48))
      else (acc, s)
  | EmptyString => (acc, s)
  end.

(** After the opening quote: the decoded characters up to the closing
    quote, and what follows it. *)
Fixpoint string_body (s : string) : option (string * string) :=
  match s with
  | EmptyString => None
  | String c s' =>
      let n := nat_of_ascii c in
      if (n =? 34)%nat then Some (EmptyString, s')
      else if (n =? 92)%nat then
        match s' with
        | String e s'' =>
            let m := nat_of_ascii e in
            let decoded :=
              if (m =? 34)%nat then Some e
              else if (m =? 92)%nat then Some e
              else if (m =? 47)%nat then Some e
              else if (m =? 110)%nat then Some (ascii_of_nat 10)
              else if (m =? 116)%nat then Some (ascii_of_nat 9)
              else if (m =? 114)%nat then Some (ascii_of_nat 13)
              else None in
            match decoded, string_body s'' with
            | Some d, Some (body, rest) => Some (String d body, rest)
            | _, _ => None
            end
        | EmptyString => None
        end
      else if (n <? 32)%nat then None
      else match string_body s' with
           | Some (body, rest) => Some (String c body, rest)
           | None => None
           end
  end.

Definition literal (word : string) (v : pyval) (s : string) : option (pyval * string) :=
  if String.prefix word s
  then Some (v, String.substring (String.length word) (String.length s) s)
  else None.

Fixpoint value (fuel : nat) (s : string) {struct fuel} : option (pyval * string) :=
  match fuel with
  | O => None
  | S fuel' =>
      match skip_ws s with
      | EmptyString => None
      | String c rest =>
          let n := nat_of_ascii c in
          if (n =? 110)%nat then literal "null" PNone (String c rest)
          else if (n =? 116)%nat then literal "true" (PBool true) (String c rest)
          else if (n =? 102)%nat then literal "false" (PBool false) (String c rest)
          else if (n =? 34)%nat then
            match string_body rest with
            | Some (body, rest') => Some (PStr body, rest')
            | None => None
            end
          else if (n =? 45)%nat then
            match rest with
            | String d _ =>
                if is_digit d
                then let '(z, rest') := digits rest 0 in Some (PInt (- z), rest')
                else None
            | EmptyString => None
            end
          else if is_digit c then
            let '(z, rest') := digits (String c rest) 0 in Some (PInt z, rest')
          else if (n =? 91)%nat then
            match skip_ws rest with
            | String c' rest' =>
                if (nat_of_ascii c' =? 93)%nat then Some (PList [], rest')
                else elements fuel' rest []
            | EmptyString => None
            end
          else if (n =? 123)%nat then
            match skip_ws rest with
            | String c' rest' =>
                if (nat_of_ascii c' =? 125)%nat then Some (PDict ∅, rest')
                else members fuel' rest ∅
            | EmptyString => None
            end
          else None
      end
  end
with elements (fuel : nat) (s : string) (acc : list pyval) {struct fuel} : option (pyval * string) :=
  match fuel with
  | O => None
  | S fuel' =>
      match value fuel' s with
      | Some (v, rest) =>
          match skip_ws rest with
          | String c rest' =>
              if (nat_of_ascii c =? 44)%nat then elements fuel' rest' (acc ++ [v])
              else if (nat_of_ascii c =? 93)%nat then Some (PList (acc ++ [v]), rest')
              else None
          | EmptyString => None
          end
      | None => None
      end
  end
with members (fuel : nat) (s : string) (acc : gmap string pyval) {struct fuel} : option (pyval * string) :=
  match fuel with
  | O => None
  | S fuel' =>
      match skip_ws s with
      | String q rest =>
          if (nat_of_ascii q =? 34)%nat then
            match string_body rest with
            | Some (key, rest1) =>
                match skip_ws rest1 with
                | String colon rest2 =>
                    if (nat_of_ascii colon =? 58)%nat then
                      match value fuel' rest2 with
                      | Some (v, rest3) =>
                          match skip_ws rest3 with
                          | String c rest4 =>
                              if (nat_of_ascii c =? 44)%nat then members fuel' rest4 (<[key := v]> acc)
                              else if (nat_of_ascii c =? 125)%nat then Some (PDict (<[key := v]> acc), rest4)
                              else None
                          | EmptyString => None
                          end
                      | None => None
                      end
                    else None
                | EmptyString => None
                end
            | None => None
            end
          else None
      | EmptyString => None
      end
  end.

(** [json.loads(s)]: one value, then nothing but whitespace. *)
Definition loads (s : string) : outcome pyval :=
  match value (2 * String.length s + 2) s with
  | Some (v, rest) =>
      match skip_ws rest with
      | EmptyString => Returns v
      | String _ _ => Raises (JSONDecodeError "Extra data")
      end
  | None => Raises (JSONDecodeError "Expecting value")
  end.

End Json.

(** ** Notions used to state the properties *)

(** A string without its last character. *)
Fixpoint drop_last (s : string) : string :=
  match s with
  | EmptyString => EmptyString
  | String c s' =>
      match s' with
      | EmptyString => EmptyString
      | String _ _ => String c (drop_last s')
      end
  end.

Definition fence : string := "```".
Definition fence_json : string := "```json".

(** [first_at sub p]: [sub], written right after [p], does not occur
    earlier, that is, no occurrence of [sub] lies within [p] followed by
    all of [sub] but its last character.  [sub] is [sub0] followed by
    one character. *)
Definition first_at (sub0 p : string) (c : ascii) : Prop :=
  Py.contains (sub0 +:+ String c EmptyString) (p +:+ sub0) = false.

(** The extraction policy, in its order of precedence: [selected s t]
    when [t] is the text between the first tagged fence of [s] and the
    next fence; or, when [s] has no tagged fence, the text between its
    first fence and the next one; or, when [s] has no fence, [s] itself.
    In the first two cases the opening fence is closed. *)
Inductive selected (s : string) : string -> Prop :=
  | selected_tagged pre mid post :
      s = pre +:+ fence_json +:+ mid +:+ fence +:+ post ->
      first_at "```jso" pre "n" ->
      first_at "``" mid "`" ->
      selected s mid
  | selected_untagged pre mid post :
      s = pre +:+ fence +:+ mid +:+ fence +:+ post ->
      Py.contains fence_json s = false ->
      first_at "``" pre "`" ->
      first_at "``" mid "`" ->
      selected s mid
  | selected_plain :
      Py.contains fence s = false ->
      selected s s.

(** A reply whose opening fence is never closed: [unclosed s rest] when
    [rest] is all that follows the opening fence, and holds no fence. *)
Inductive unclosed (s : string) : string -> Prop :=
  | unclosed_tagged pre rest :
      s = pre +:+ fence_json +:+ rest ->
      first_at "```jso" pre "n" ->
      Py.contains fence rest = false ->
      unclosed s rest
  | unclosed_untagged pre rest :
      s = pre +:+ fence +:+ rest ->
      Py.contains fence_json s = false ->
      first_at "``" pre "`" ->
      Py.contains fence rest = false ->
      unclosed s rest.

(** [c in s] for a character. *)
Fixpoint has_char (c : ascii) (s : string) : bool :=
  match s with
  | EmptyString => false
  | String a s' => Ascii.eqb a c || has_char c s'
  end.

Fixpoint all_space (s : string) : bool :=
  match s with
  | EmptyString => true
  | String c s' => Py.isspace c && all_space s'
  end.

Definition starts_with_space (s : string) : bool :=
  match s with
  | EmptyString => false
  | String c _ => Py.isspace c
  end.

Fixpoint ends_with_space (s : string) : bool :=
  match s with
  | EmptyString => false
  | String c EmptyString => Py.isspace c
  | String _ s' => ends_with_space s'
  end.

(** The first letter upper-cased, the other characters untouched. *)
Definition capitalize_first_letter (s : string) : string :=
  match s with
  | EmptyString => EmptyString
  | String c s' => String (Py.upper_char c) s'
  end.

(** What may follow the first label of the domain: nothing, a dot or
    another [@]. *)
Definition ends_label (tail : string) : bool :=
  match tail with
  | EmptyString => true
  | String c _ => Ascii.eqb c "." || Ascii.eqb c "@"
  end.

(** The company rule, for a capitalisation [cap]: without [@] the
    company is the literal [Company]; otherwise it is [cap] of the first
    label of the second segment, [email] being [local@label] followed by
    the rest of the domain. *)
Inductive company_rule (cap : string -> string) (email : string) : string -> Prop :=
  | company_default :
      has_char "@" email = false ->
      company_rule cap email "Company"
  | company_label local label tail :
      email = local +:+ "@" +:+ label +:+ tail ->
      has_char "@" local = false ->
      has_char "@" label = false ->
      has_char "." label = false ->
      ends_label tail = true ->
      company_rule cap email (cap label).

(** The first segment of [s.split(sep)] and what follows the first
    separator. *)
Fixpoint before (sep : ascii) (s : string) : string :=
  match s with
  | EmptyString => EmptyString
  | String c s' => if Ascii.eqb c sep then EmptyString else String c (before sep s')
  end.

Fixpoint after (sep : ascii) (s : string) : string :=
  match s with
  | EmptyString => EmptyString
  | String c s' => if Ascii.eqb c sep then s' else after sep s'
  end.

(** The profile the fallback writes for attendee [x]. *)
Definition unresearched (x : Attendee) (p : gmap string pyval) : Prop :=
  p !! "name" = Some (PStr (name x))
  /\ p !! "email" = Some (PStr (email x))
  /\ p !! "role" = Some (PStr "Role not yet researched")
  /\ p !! "company" = Some (PStr (extract_company_from_email (email x)))
  /\ p !! "background" = Some (PStr "Research in progress...")
  /\ p !! "recent_activity" = Some (PStr EmptyString)
  /\ p !! "key_fact" = Some (PStr EmptyString)
  /\ size p = 7%nat.

(** ** The mock brief of research_service.py *)

(** The entries of the display are evaluated in order: [attendees[0]] is
    indexed for the name, then for the email, and everything else is
    fixed text.  [now] is the clock reading. *)
Definition generate_mock_brief (now : string) (attendees : list Attendee) : outcome pyval :=
  named ← Py.getitem attendees 0;
  mailed ← Py.getitem attendees 0;
  mret (dict
    [ ("attendees", PList
         [ dict [ ("name", PStr (name named));
                  ("email", PStr (email mailed));
                  ("role", PStr "VP of Sales");
                  ("company", PStr "Acme Corp");
                  ("background", PStr "10+ years in B2B SaaS sales. Previously led sales at Salesforce for the mid-market segment. Passionate about AI adoption in sales processes.");
                  ("recent_activity", PStr "Recently posted on LinkedIn about their Q4 results and 2025 strategy");
                  ("key_fact", PStr "Just completed Stanford Executive Program in AI for Business") ] ]);
      ("conversation_starters", PList
         [ PStr "I saw your recent post about Q4 results - congratulations on the strong finish! How are you thinking about building on that momentum?";
           PStr "I noticed you completed the Stanford AI program - I'm curious how you're applying those insights to your sales strategy";
           PStr "Your approach to the mid-market segment at Salesforce is really interesting. What lessons are you bringing to Acme?" ]);
      ("questions_to_ask", PList
         [ PStr "What are your top 3 priorities for Q1 2025?";
           PStr "How do you see AI transforming your sales process over the next year?";
           PStr "What challenges are you facing in scaling your sales team?";
           PStr "How do you typically evaluate new tools or partners?" ]);
      ("strategy", PStr "Position as a partner who understands their growth trajectory and can provide ROI-focused solutions. Emphasize speed to value and how you've helped similar companies scale. Ask about their decision timeline and key stakeholders early in the conversation.");
      ("generated_at", PStr now) ]).

(** ** Further notions *)

(** The test of the loop over the blocks, and the texts it keeps. *)
Definition is_text (block : content_block) : bool :=
  String.eqb (block_type block) "text".

Definition texts (content : list content_block) : list string :=
  map block_text (List.filter is_text content).

(** All the strings of a list, one after the other. *)
Definition concat_all (l : list string) : string :=
  foldr String.append EmptyString l.

Definition is_dict (v : pyval) : bool :=
  match v with
  | PDict _ => true
  | _ => false
  end.

(** The bullet of one attendee in the prompt. *)
Definition attendee_line (a : Attendee) : string :=
  "- " +:+ name a +:+ " (" +:+ email a +:+ ")".

(** The keys of a dict, and of the first element of a list of dicts. *)
Definition keys (v : pyval) : gset string :=
  match v with
  | PDict d => dom d
  | _ => ∅
  end.

Definition entry (key : string) (v : pyval) : option pyval :=
  match v with
  | PDict d => d !! key
  | _ => None
  end.

(** ** The route and its response model *)

Definition is_str (v : pyval) : bool :=
  match v with
  | PStr _ => true
  | _ => false
  end.

Definition is_list_of (p : pyval -> bool) (v : pyval) : bool :=
  match v with
  | PList l => forallb p l
  | _ => false
  end.

(** The class [BriefResponse] of main.py, as the route applies it to the
    value the handler returns ([response_model=BriefResponse]): each of
    the six fields is required and must have its declared type, [str],
    [List[dict]] or [List[str]]; a value that fits is sent with these
    six fields only, any other key being dropped; a value that does not
    fit is refused.  Among the values a decoder or the fallback can
    produce, a field of type [str] is met by a string only. *)
Definition BriefResponse (v : pyval) : option pyval :=
  match v with
  | PDict d =>
      identifier ← d !! "meeting_id";
      profiles ← d !! "attendees";
      starters ← d !! "conversation_starters";
      questions ← d !! "questions_to_ask";
      plan ← d !! "strategy";
      stamp ← d !! "generated_at";
      if is_str identifier && is_list_of is_dict profiles
         && is_list_of is_str starters && is_list_of is_str questions
         && is_str plan && is_str stamp
      then Some (dict [ ("meeting_id", identifier);
                        ("attendees", profiles);
                        ("conversation_starters", starters);
                        ("questions_to_ask", questions);
                        ("strategy", plan);
                        ("generated_at", stamp) ])
      else None
  | _ => None
  end.

(** What the caller of [POST /api/generate-brief] receives: the brief
    with status 200; the [detail] of an [HTTPException] with its status;
    or the bare 500 of the framework, which is its answer to an
    exception raised outside the handler. *)
Inductive http_answer : Type :=
  | Answer200 (body : pyval)
  | AnswerError (status_code : Z) (detail : string)
  | AnswerServerError.

(** The route: the handler, then the response model on what it returns.
    The validation runs after the handler has returned, outside its
    [try]; a refusal is an exception of the framework.  The response
    model is a parameter, [BriefResponse] for this route. *)
Definition post_generate_brief
    (response_model : pyval -> option pyval)
    (messages_create : string -> outcome (list content_block))
    (json_loads : string -> outcome pyval)
    (request : BriefRequest) (t_prompt t_fallback : string) : http_answer :=
  match generate_brief messages_create json_loads request t_prompt t_fallback with
  | Response body =>
      match response_model body with
      | Some sent => Answer200 sent
      | None => AnswerServerError
      end
  | HTTPException status_code detail => AnswerError status_code detail
  end.

(** ** Sample data *)

Definition alice : Attendee := mk_attendee "alice@acme.io" "Alice".
Definition bob : Attendee := mk_attendee "bob@sub.example.com" "Bob".

(** A provider whose call fails, and one that answers [text] after a
    search block. *)
Definition provider_down : string -> outcome (list content_block) :=
  fun _ => Raises (mk_exn "APIConnectionError" "Connection error.").

Definition provider_says (text : string) : string -> outcome (list content_block) :=
  fun _ => Returns [mk_block "server_tool_use" EmptyString; mk_block "text" text].

(** A reply with a tagged block followed by an unrelated untagged one. *)
Definition tagged_body : string :=
  nl +:+ "{" +:+ quoted "strategy" +:+ ": " +:+ quoted "x" +:+ ", "
     +:+ quoted "meeting_id" +:+ ": " +:+ quoted "from-model" +:+ "}" +:+ nl.

Definition reply_tagged : string :=
  "Here is the brief:" +:+ nl +:+ "```json" +:+ tagged_body +:+ "```" +:+ nl
  +:+ "Notes:" +:+ nl +:+ "```" +:+ nl +:+ "not json" +:+ nl +:+ "```".

(** A reply with one untagged block, and one without any fence. *)
Definition reply_untagged : string :=
  "Brief:" +:+ nl +:+ "```" +:+ nl +:+ "[1, 2]" +:+ nl +:+ "```" +:+ nl +:+ "Done.".

Definition reply_plain : string := "  [1, 2]" +:+ nl.

(** A reply cut short: the tagged fence is never closed. *)
Definition unclosed_body : string :=
  nl +:+ "{" +:+ quoted "strategy" +:+ ": " +:+ quoted "x" +:+ "}".

Definition reply_unclosed : string := "```json" +:+ unclosed_body.

(** A reply truncated inside the object. *)
Definition reply_truncated : string := "{" +:+ quoted "attendees" +:+ ":".

Definition request_m1 : BriefRequest :=
  mk_request "m1" "Sync" "2025-01-01T10:00" [mk_attendee "a@acme.io" "A"].

Definition request_empty : BriefRequest :=
  mk_request "m0" "Sync" "2025-01-01T10:00" [].

(** * Facts about the string primitives *)

(** stdpp blocks the unfolding of string concatenation by [simpl]; the
    inductions on strings below need it. *)
#[local] Arguments String.append !s1 s2 : simpl nomatch.

Section StringFacts.

Implicit Types (s p q sub : string) (c : ascii).

Lemma append_assoc s p q : (s +:+ p) +:+ q = s +:+ (p +:+ q).
Proof. induction s as [|c s IH]; simpl; [reflexivity | now rewrite IH]. Qed.

Lemma append_empty_r s : s +:+ EmptyString = s.
Proof. induction s as [|c s IH]; simpl; [reflexivity | now rewrite IH]. Qed.

Lemma length_append s p :
  String.length (s +:+ p) = (String.length s + String.length p)%nat.
Proof. induction s as [|c s IH]; simpl; [reflexivity | now rewrite IH]. Qed.

Lemma len_append s p : Py.len (s +:+ p) = Py.len s + Py.len p.
Proof. unfold Py.len. rewrite length_append. lia. Qed.

Lemma len_nonneg s : 0 <= Py.len s.
Proof. unfold Py.len. lia. Qed.

Lemma prefix_append sub q : String.prefix sub (sub +:+ q) = true.
Proof.
  induction sub as [|c sub IH]; simpl; [now destruct q |].
  destruct (ascii_dec c c) as [_ | Hne]; [exact IH | now destruct Hne].
Qed.

(** A prefix of [p +:+ q] no longer than [p] is a prefix of [p]. *)
Lemma prefix_append_short sub p q :
  String.prefix sub (p +:+ q) = true ->
  (String.length sub <= String.length p)%nat ->
  String.prefix sub p = true.
Proof.
  revert p; induction sub as [|c sub IH]; intros p Hpre Hlen; [now destruct p |].
  destruct p as [|c' p]; simpl in Hlen; [lia |].
  simpl in *. destruct (ascii_dec c c'); [| discriminate].
  apply IH; [exact Hpre | lia].
Qed.

(** Searching from the end of [p] is searching what follows [p]. *)
Lemma index_append sub p s :
  String.index (String.length p) sub (p +:+ s)
  = (fun i => (String.length p + i)%nat) <$> String.index 0 sub s.
Proof.
  induction p as [|c p IH]; simpl.
  - now destruct (String.index 0 sub s).
  - rewrite IH. now destruct (String.index 0 sub s).
Qed.

Lemma index_cons_0 sub c s :
  String.index 0 sub (String c s)
  = if String.prefix sub (String c s) then Some 0%nat
    else S <$> String.index 0 sub s.
Proof. reflexivity. Qed.

(** The needle [sub0 +:+ c] placed after [p] is found there, provided
    it does not start earlier: no occurrence lies within [p +:+ sub0]. *)
Lemma index_first p sub0 c q :
  Py.contains (sub0 +:+ String c EmptyString) (p +:+ sub0) = false ->
  String.index 0 (sub0 +:+ String c EmptyString)
    (p +:+ (sub0 +:+ String c EmptyString) +:+ q) = Some (String.length p).
Proof.
  set (sub := sub0 +:+ String c EmptyString).
  assert (Hsub : exists a t, sub = String a t).
  { unfold sub. destruct sub0; simpl; eauto. }
  unfold Py.contains. induction p as [|a p IH]; intros Hno.
  - simpl String.append at 1. destruct Hsub as (a & t & Ha).
    assert (Hp := prefix_append sub q). rewrite Ha in *. simpl String.append.
    rewrite index_cons_0. simpl String.append in Hp. now rewrite Hp.
  - simpl String.append in *. rewrite index_cons_0 in Hno |- *.
    destruct (String.prefix sub (String a (p +:+ sub0))) eqn:Hpre; [discriminate |].
    destruct (String.prefix sub (String a (p +:+ sub +:+ q))) eqn:Hpre'.
    + exfalso. rewrite <- Bool.not_true_iff_false in Hpre. apply Hpre.
      apply (prefix_append_short sub (String a (p +:+ sub0)) (String c EmptyString +:+ q)).
      * rewrite <- Hpre'. f_equal. simpl String.append. f_equal.
        unfold sub. rewrite !append_assoc. reflexivity.
      * unfold sub. simpl. rewrite !length_append. simpl. lia.
    + rewrite IH; [reflexivity |].
      now destruct (String.index 0 sub (p +:+ sub0)).
Qed.

Lemma substring_append p s n :
  String.substring (String.length p) n (p +:+ s) = String.substring 0 n s.
Proof. induction p as [|c p IH]; simpl; [reflexivity | exact IH]. Qed.

Lemma substring_prefix s q :
  String.substring 0 (String.length s) (s +:+ q) = s.
Proof.
  induction s as [|c s IH]; simpl; [now destruct q | now rewrite IH].
Qed.

Lemma contains_cons sub c s :
  Py.contains sub (String c s)
  = String.prefix sub (String c s) || Py.contains sub s.
Proof.
  unfold Py.contains. rewrite index_cons_0.
  destruct (String.prefix sub (String c s)); [reflexivity |].
  now destruct (String.index 0 sub s).
Qed.

Lemma prefix_inv sub s :
  String.prefix sub s = true -> exists q, s = sub +:+ q.
Proof.
  revert s; induction sub as [|c sub IH]; intros s Hpre; [now exists s |].
  destruct s as [|c' s]; simpl in Hpre; [discriminate |].
  destruct (ascii_dec c c') as [<- |]; [| discriminate].
  destruct (IH _ Hpre) as [q ->]. now exists q.
Qed.

(** [Py.contains] is substring containment. *)
Lemma contains_spec sub s :
  Py.contains sub s = true <-> exists p q, s = p +:+ sub +:+ q.
Proof.
  split.
  - induction s as [|c s IH].
    + unfold Py.contains; simpl. destruct sub; [| discriminate].
      intros _. now exists EmptyString, EmptyString.
    + rewrite contains_cons. intros [Hpre | Hin]%Bool.orb_true_iff.
      * destruct (prefix_inv _ _ Hpre) as [q ->]. now exists EmptyString, q.
      * destruct (IH Hin) as (p & q & ->). now exists (String c p), q.
  - intros (p & q & ->). induction p as [|c p IH].
    + simpl. destruct (sub +:+ q) as [|c t] eqn:E.
      * destruct sub; [reflexivity | discriminate].
      * rewrite contains_cons, <- E, prefix_append. reflexivity.
    + simpl. rewrite contains_cons, IH. apply Bool.orb_true_r.
Qed.

(** A string that holds [a +:+ b] holds [a]. *)
Lemma contains_weaken a b s :
  Py.contains a s = false -> Py.contains (a +:+ b) s = false.
Proof.
  intros Hno. destruct (Py.contains (a +:+ b) s) eqn:Hin; [| reflexivity].
  apply contains_spec in Hin as (p & q & ->).
  rewrite <- Hno. symmetry. apply contains_spec.
  exists p, (b +:+ q). now rewrite append_assoc.
Qed.

Lemma substring_drop_last s :
  String.substring 0 (Nat.pred (String.length s)) s = drop_last s.
Proof.
  induction s as [|c s IH]; [reflexivity |].
  destruct s as [|c' s]; [reflexivity |].
  change (drop_last (String c (String c' s)))
    with (String c (drop_last (String c' s))).
  rewrite <- IH. reflexivity.
Qed.

(** [s[a:b]] cuts [m] out of [p +:+ m +:+ q] at its bounds. *)
Lemma slice_between p m q :
  Py.slice (p +:+ m +:+ q) (Py.len p) (Py.len p + Py.len m) = m.
Proof.
  unfold Py.slice, Py.slice_bound. rewrite !len_append.
  pose proof (len_nonneg p). pose proof (len_nonneg m). pose proof (len_nonneg q).
  destruct (Z.ltb_spec (Py.len p) 0); [lia |].
  destruct (Z.ltb_spec (Py.len p + Py.len m) 0); [lia |].
  rewrite !Z.min_l by lia.
  destruct (Z.ltb_spec (Py.len p) (Py.len p + Py.len m)).
  - replace (Py.len p + Py.len m - Py.len p) with (Py.len m) by lia.
    unfold Py.len. rewrite !Nat2Z.id.
    now rewrite substring_append, substring_prefix.
  - destruct m; [reflexivity | unfold Py.len in *; simpl in *; lia].
Qed.

(** [s[a:-1]] is what follows position [a] without the last character
    of the string. *)
Lemma slice_to_last p r :
  Py.slice (p +:+ r) (Py.len p) (-1) = drop_last r.
Proof.
  unfold Py.slice, Py.slice_bound. rewrite !len_append.
  pose proof (len_nonneg p). pose proof (len_nonneg r).
  destruct (Z.ltb_spec (Py.len p) 0); [lia |].
  change (-1 <? 0) with true. cbv iota.
  rewrite Z.min_l by lia.
  destruct (Z.ltb_spec (Py.len p) (Z.max 0 (-1 + (Py.len p + Py.len r)))).
  - rewrite Z.max_r by lia.
    replace (-1 + (Py.len p + Py.len r) - Py.len p) with (Py.len r - 1) by lia.
    unfold Py.len. rewrite Nat2Z.id.
    replace (Z.to_nat (Z.of_nat (String.length r) - 1)) with (Nat.pred (String.length r)) by lia.
    now rewrite substring_append, substring_drop_last.
  - destruct r as [|c [|c' r]]; [reflexivity | reflexivity |].
    unfold Py.len in *; simpl in *; lia.
Qed.

Lemma contains_first p sub0 c q :
  first_at sub0 p c ->
  Py.contains (sub0 +:+ String c EmptyString)
    (p +:+ (sub0 +:+ String c EmptyString) +:+ q) = true.
Proof.
  intros H. unfold Py.contains. now rewrite (index_first p sub0 c q H).
Qed.

Lemma find_first p sub0 c q :
  first_at sub0 p c ->
  Py.find (p +:+ (sub0 +:+ String c EmptyString) +:+ q)
    (sub0 +:+ String c EmptyString) 0 = Py.len p.
Proof.
  intros H. unfold Py.find. now rewrite (index_first p sub0 c q H).
Qed.

Lemma find_after p m sub0 c q :
  first_at sub0 m c ->
  Py.find (p +:+ m +:+ (sub0 +:+ String c EmptyString) +:+ q)
    (sub0 +:+ String c EmptyString) (String.length p) = Py.len p + Py.len m.
Proof.
  intros H. unfold Py.find.
  rewrite index_append, (index_first m sub0 c q H). simpl.
  unfold Py.len. lia.
Qed.

Lemma find_absent p r sub :
  Py.contains sub r = false ->
  Py.find (p +:+ r) sub (String.length p) = -1.
Proof.
  unfold Py.contains, Py.find. rewrite index_append.
  now destruct (String.index 0 sub r).
Qed.

End StringFacts.

(** * The extraction of the JSON text *)

Section Extraction.

Implicit Types (s pre mid post rest : string).

(** What the first two branches compute once the opening fence [open]
    is located right after [pre]. *)
Lemma closed_fence_slice pre open mid post :
  first_at "``" mid "`" ->
  let s := pre +:+ open +:+ mid +:+ fence +:+ post in
  let json_start := Py.len pre + Py.len open in
  Py.slice s json_start (Py.find s fence (Z.to_nat json_start)) = mid.
Proof.
  intros Hmid s json_start.
  assert (Hs : s = (pre +:+ open) +:+ mid +:+ fence +:+ post).
  { unfold s. now rewrite append_assoc. }
  assert (Hstart : json_start = Py.len (pre +:+ open)).
  { unfold json_start. now rewrite len_append. }
  rewrite Hs, Hstart. unfold Py.len at 2. rewrite Nat2Z.id.
  pose proof (find_after (pre +:+ open) mid "``" "`" post Hmid) as Hfind.
  change ("``" +:+ String "`" EmptyString) with fence in Hfind.
  rewrite Hfind. apply slice_between.
Qed.

Lemma open_fence_slice pre open rest :
  Py.contains fence rest = false ->
  let s := pre +:+ open +:+ rest in
  let json_start := Py.len pre + Py.len open in
  Py.slice s json_start (Py.find s fence (Z.to_nat json_start)) = drop_last rest.
Proof.
  intros Hrest s json_start.
  assert (Hs : s = (pre +:+ open) +:+ rest).
  { unfold s. now rewrite append_assoc. }
  assert (Hstart : json_start = Py.len (pre +:+ open)).
  { unfold json_start. now rewrite len_append. }
  rewrite Hs, Hstart. unfold Py.len at 2. rewrite Nat2Z.id.
  rewrite (find_absent _ _ _ Hrest). apply slice_to_last.
Qed.

(** The branch taken, and where the opening fence is found. *)
Lemma tagged_branch pre q :
  first_at "```jso" pre "n" ->
  Py.contains fence_json (pre +:+ fence_json +:+ q) = true
  /\ Py.find (pre +:+ fence_json +:+ q) fence_json 0 + 7 = Py.len pre + Py.len fence_json.
Proof.
  intros Hpre. split.
  - exact (contains_first pre "```jso" "n" q Hpre).
  - pose proof (find_first pre "```jso" "n" q Hpre) as Hfind.
    change ("```jso" +:+ String "n" EmptyString) with fence_json in Hfind.
    rewrite Hfind. reflexivity.
Qed.

Lemma untagged_branch pre q :
  first_at "``" pre "`" ->
  Py.contains fence (pre +:+ fence +:+ q) = true
  /\ Py.find (pre +:+ fence +:+ q) fence 0 + 3 = Py.len pre + Py.len fence.
Proof.
  intros Hpre. split.
  - exact (contains_first pre "``" "`" q Hpre).
  - pose proof (find_first pre "``" "`" q Hpre) as Hfind.
    change ("``" +:+ String "`" EmptyString) with fence in Hfind.
    rewrite Hfind. reflexivity.
Qed.

Lemma prefix_append_l sub s q :
  String.prefix sub s = true -> String.prefix sub (s +:+ q) = true.
Proof.
  intros H. destruct (prefix_inv _ _ H) as [t ->].
  rewrite append_assoc. apply prefix_append.
Qed.

Lemma contains_length sub s :
  Py.contains sub s = true -> (String.length sub <= String.length s)%nat.
Proof.
  intros (p & q & ->)%contains_spec. rewrite !length_append. lia.
Qed.

(** A needle that occurs has a first occurrence. *)
Lemma first_occurrence sub0 c s :
  Py.contains (sub0 +:+ String c EmptyString) s = true ->
  exists pre q,
    s = pre +:+ (sub0 +:+ String c EmptyString) +:+ q /\ first_at sub0 pre c.
Proof.
  set (sub := sub0 +:+ String c EmptyString).
  assert (Hlen : String.length sub = S (String.length sub0)).
  { unfold sub. rewrite length_append. simpl. lia. }
  induction s as [|a s IH]; intros Hin.
  - apply contains_length in Hin. simpl in Hin. lia.
  - rewrite contains_cons in Hin.
    destruct (String.prefix sub (String a s)) eqn:Hpre.
    + destruct (prefix_inv _ _ Hpre) as [q Hq]. exists EmptyString, q.
      split; [exact Hq |]. unfold first_at. fold sub. simpl.
      destruct (Py.contains sub sub0) eqn:Hc; [| reflexivity].
      apply contains_length in Hc. lia.
    + simpl in Hin. destruct (IH Hin) as (pre & q & -> & Hfirst).
      exists (String a pre), q. split; [reflexivity |].
      unfold first_at in *. fold sub in Hfirst |- *. simpl.
      rewrite contains_cons, Hfirst, Bool.orb_false_r.
      destruct (String.prefix sub (String a (pre +:+ sub0))) eqn:Hpre'; [| reflexivity].
      rewrite <- Hpre. symmetry.
      replace (String a (pre +:+ sub +:+ q))
        with (String a (pre +:+ sub0) +:+ (String c EmptyString +:+ q)).
      * now apply prefix_append_l.
      * simpl. f_equal. unfold sub. now rewrite !append_assoc.
Qed.

(** Every reply falls under the policy or has an opening fence that is
    never closed. *)
Lemma extraction_cases s :
  (exists t, selected s t) \/ (exists rest, unclosed s rest).
Proof.
  destruct (Py.contains fence_json s) eqn:Htag.
  - destruct (first_occurrence "```jso" "n" s Htag) as (pre & q & Hs & Hpre).
    destruct (Py.contains fence q) eqn:Hclose.
    + destruct (first_occurrence "``" "`" q Hclose) as (mid & post & -> & Hmid).
      left. exists mid. now apply (selected_tagged s pre mid post).
    + right. exists q. now apply (unclosed_tagged s pre q).
  - destruct (Py.contains fence s) eqn:Hfence.
    + destruct (first_occurrence "``" "`" s Hfence) as (pre & q & Hs & Hpre).
      destruct (Py.contains fence q) eqn:Hclose.
      * destruct (first_occurrence "``" "`" q Hclose) as (mid & post & -> & Hmid).
        left. exists mid. now apply (selected_untagged s pre mid post).
      * right. exists q. now apply (unclosed_untagged s pre q).
    + left. exists s. now apply selected_plain.
Qed.

Lemma json_text_unfold s :
  json_text s =
    if Py.contains fence_json s then
      Py.strip (Py.slice s (Py.find s fence_json 0 + 7)
                  (Py.find s fence (Z.to_nat (Py.find s fence_json 0 + 7))))
    else if Py.contains fence s then
      Py.strip (Py.slice s (Py.find s fence 0 + 3)
                  (Py.find s fence (Z.to_nat (Py.find s fence 0 + 3))))
    else Py.strip s.
Proof. reflexivity. Qed.

Lemma json_text_plain s :
  Py.contains fence s = false -> json_text s = Py.strip s.
Proof.
  intros Hno. rewrite json_text_unfold.
  pose proof (contains_weaken fence "json" s Hno) as Hjson.
  change (fence +:+ "json") with fence_json in Hjson.
  now rewrite Hjson, Hno.
Qed.

End Extraction.

(** * Splitting and trimming *)

Section SplitFacts.

Implicit Types (s t : string) (sep c : ascii).

Lemma split_head s sep : exists segs, Py.split s sep = before sep s :: segs.
Proof.
  induction s as [|c s [segs IH]]; simpl; [now exists [] |].
  destruct (Ascii.eqb c sep); [now eexists |].
  rewrite IH. now eexists.
Qed.

Lemma split_single s sep : has_char sep s = false -> Py.split s sep = [s].
Proof.
  induction s as [|c s IH]; simpl; [reflexivity |].
  destruct (Ascii.eqb c sep); [discriminate |].
  intros H. now rewrite (IH H).
Qed.

Lemma split_second s sep :
  has_char sep s = true ->
  exists segs, Py.split s sep = before sep s :: before sep (after sep s) :: segs.
Proof.
  induction s as [|c s IH]; simpl; [discriminate |].
  destruct (Ascii.eqb c sep); simpl.
  - intros _. destruct (split_head s sep) as [segs ->]. now eexists.
  - intros H. destruct (IH H) as [segs ->]. now eexists.
Qed.

Lemma getitem_0 s sep : Py.getitem (Py.split s sep) 0 = Returns (before sep s).
Proof. destruct (split_head s sep) as [segs ->]. reflexivity. Qed.

Lemma getitem_1 s sep :
  Py.getitem (Py.split s sep) 1
  = if has_char sep s then Returns (before sep (after sep s))
    else Raises (IndexError "list index out of range").
Proof.
  destruct (has_char sep s) eqn:H.
  - destruct (split_second s sep H) as [segs ->]. reflexivity.
  - now rewrite (split_single s sep H).
Qed.

Lemma has_char_append sep s t :
  has_char sep (s +:+ t) = has_char sep s || has_char sep t.
Proof.
  induction s as [|c s IH]; simpl; [reflexivity |].
  now rewrite IH, Bool.orb_assoc.
Qed.

Lemma before_after s sep :
  has_char sep s = true ->
  s = before sep s +:+ String sep (after sep s) /\ has_char sep (before sep s) = false.
Proof.
  induction s as [|c s IH]; simpl; [discriminate |].
  destruct (Ascii.eqb c sep) eqn:E; simpl.
  - apply Ascii.eqb_eq in E as ->. now split.
  - intros H. destruct (IH H) as [Hs Hb]. rewrite E. simpl. split; [| exact Hb].
    now rewrite <- Hs.
Qed.

Lemma before_append s sep t :
  has_char sep s = false -> before sep (s +:+ String sep t) = s.
Proof.
  induction s as [|c s IH]; simpl.
  - now rewrite Ascii.eqb_refl.
  - destruct (Ascii.eqb c sep); [discriminate |]. intros H. now rewrite (IH H).
Qed.

Lemma after_append s sep t :
  has_char sep s = false -> after sep (s +:+ String sep t) = t.
Proof.
  induction s as [|c s IH]; simpl.
  - now rewrite Ascii.eqb_refl.
  - destruct (Ascii.eqb c sep); [discriminate |]. intros H. now rewrite (IH H).
Qed.

(** The first label of a domain that starts with [label]. *)
Lemma first_label label tail :
  has_char "@" label = false ->
  has_char "." label = false ->
  ends_label tail = true ->
  before "." (before "@" (label +:+ tail)) = label.
Proof.
  induction label as [|c label IH]; simpl.
  - intros _ _. destruct tail as [|c t]; simpl; [reflexivity |].
    destruct (Ascii.eqb c "@") eqn:Eat; [reflexivity |].
    rewrite Bool.orb_false_r. simpl. now intros ->.
  - destruct (Ascii.eqb c "@"); [discriminate |].
    destruct (Ascii.eqb c ".") eqn:Edot; [discriminate |]. simpl.
    intros H1 H2 H3. now rewrite Edot, (IH H1 H2 H3).
Qed.

(** Every string starts with a label: characters other than the dot
    and [@], up to the first of these or to the end. *)
Lemma label_split s :
  exists tail,
    s = before "." (before "@" s) +:+ tail
    /\ has_char "@" (before "." (before "@" s)) = false
    /\ has_char "." (before "." (before "@" s)) = false
    /\ ends_label tail = true.
Proof.
  induction s as [|c s (tail & Hs & Hat & Hdot & Hend)]; simpl.
  - now exists EmptyString.
  - destruct (Ascii.eqb c "@") eqn:Eat; simpl.
    + exists (String c s). simpl. now rewrite Eat, Bool.orb_true_r.
    + destruct (Ascii.eqb c ".") eqn:Edot; simpl.
      * exists (String c s). simpl. now rewrite Edot.
      * exists tail. rewrite Eat, Edot. simpl. repeat split; try assumption.
        now rewrite <- Hs.
Qed.

(** The function in closed form. *)
Lemma extract_company_eq email :
  extract_company_from_email email
  = if has_char "@" email
    then Py.capitalize (before "." (before "@" (after "@" email)))
    else "Company".
Proof.
  unfold extract_company_from_email. rewrite getitem_1.
  destruct (has_char "@" email); [| reflexivity].
  simpl. now rewrite getitem_0.
Qed.

Lemma lstrip_spec s :
  exists l, s = l +:+ Py.lstrip s /\ all_space l = true
            /\ starts_with_space (Py.lstrip s) = false.
Proof.
  induction s as [|c s (l & Hs & Hl & Hstart)]; simpl.
  - now exists EmptyString.
  - destruct (Py.isspace c) eqn:E.
    + exists (String c l). simpl. rewrite E, Hl. now rewrite <- Hs.
    + exists EmptyString. simpl. now rewrite E.
Qed.

Lemma rstrip_spec s :
  exists r, s = Py.rstrip s +:+ r /\ all_space r = true
            /\ ends_with_space (Py.rstrip s) = false
            /\ (starts_with_space s = false -> starts_with_space (Py.rstrip s) = false).
Proof.
  induction s as [|c s (r & Hs & Hr & Hend & _)].
  - now exists EmptyString.
  - simpl Py.rstrip. destruct (Py.rstrip s) as [|c' s'] eqn:E.
    + simpl in Hs. subst r. destruct (Py.isspace c) eqn:Ec.
      * exists (String c s). simpl. rewrite Ec, Hr. now repeat split.
      * exists s. simpl. rewrite Ec. now repeat split.
    + exists r. rewrite Hs at 1. simpl. repeat split; try assumption.
      now destruct s'.
Qed.

(** [strip] removes a run of whitespace at each end and leaves none. *)
Lemma strip_spec s :
  exists l r, s = l +:+ Py.strip s +:+ r
              /\ all_space l = true /\ all_space r = true
              /\ starts_with_space (Py.strip s) = false
              /\ ends_with_space (Py.strip s) = false.
Proof.
  destruct (lstrip_spec s) as (l & Hs & Hl & Hstart).
  destruct (rstrip_spec (Py.lstrip s)) as (r & Hs' & Hr & Hend & Hkeep).
  exists l, r. unfold Py.strip. rewrite <- Hs'. repeat split; auto.
Qed.

End SplitFacts.

(** * Properties of the contract *)

(** ** Extraction of the JSON text *)

(** C3.  The extraction follows the order of precedence of the policy:
    with a tagged fence in the reply, the text between the first tagged
    fence and the next fence is taken; failing that, with any fence, the
    text between the first fence and the next one; failing that, the
    whole reply; and in each case the text is whitespace-trimmed.  A
    tagged block followed by an untagged one is thus the block parsed. *)
Theorem json_text_precedence (s t : string) :
  selected s t -> json_text s = Py.strip t.
Proof.
  intros [pre mid post -> Hpre Hmid | pre mid post -> Hno Hpre Hmid | Hno].
  - rewrite json_text_unfold.
    destruct (tagged_branch pre (mid +:+ fence +:+ post) Hpre) as [-> ->].
    f_equal. now apply closed_fence_slice.
  - rewrite json_text_unfold, Hno.
    destruct (untagged_branch pre (mid +:+ fence +:+ post) Hpre) as [-> ->].
    f_equal. now apply closed_fence_slice.
  - now apply json_text_plain.
Qed.

Lemma json_text_precedence_witness :
  (selected reply_tagged tagged_body
   /\ json_text reply_tagged = Py.strip tagged_body)
  /\ (selected reply_untagged (nl +:+ "[1, 2]" +:+ nl)
      /\ json_text reply_untagged = Py.strip (nl +:+ "[1, 2]" +:+ nl))
  /\ (selected reply_plain reply_plain
      /\ json_text reply_plain = Py.strip reply_plain).
Proof.
  assert (Htagged : selected reply_tagged tagged_body).
  { apply (selected_tagged _ ("Here is the brief:" +:+ nl) tagged_body
             (nl +:+ "Notes:" +:+ nl +:+ "```" +:+ nl +:+ "not json" +:+ nl +:+ "```"));
      reflexivity. }
  assert (Huntagged : selected reply_untagged (nl +:+ "[1, 2]" +:+ nl)).
  { apply (selected_untagged _ ("Brief:" +:+ nl) (nl +:+ "[1, 2]" +:+ nl) (nl +:+ "Done."));
      reflexivity. }
  assert (Hplain : selected reply_plain reply_plain).
  { apply selected_plain. reflexivity. }
  split; [| split]; (split; [assumption | now apply json_text_precedence]).
Defined.

(** The tagged block of the sample reply is the one decoded. *)
Example reply_tagged_decoded :
  Json.loads (json_text reply_tagged)
  = Returns (dict [("strategy", PStr "x"); ("meeting_id", PStr "from-model")]).
Proof. vm_compute. reflexivity. Qed.

(** C10.  When the opening fence is never closed, the search for the
    closing fence answers [-1], the slice stops one character short of
    the end, and the text extracted is what follows the opening fence
    without the last character of the reply, trimmed. *)
Theorem json_text_unclosed (s rest : string) :
  unclosed s rest -> json_text s = Py.strip (drop_last rest).
Proof.
  intros [pre rest' -> Hpre Hrest | pre rest' -> Hno Hpre Hrest];
    rewrite json_text_unfold.
  - destruct (tagged_branch pre rest' Hpre) as [-> ->].
    f_equal. now apply open_fence_slice.
  - rewrite Hno.
    destruct (untagged_branch pre rest' Hpre) as [-> ->].
    f_equal. now apply open_fence_slice.
Qed.

Lemma json_text_unclosed_witness :
  unclosed reply_unclosed unclosed_body
  /\ json_text reply_unclosed = Py.strip (drop_last unclosed_body).
Proof.
  assert (H : unclosed reply_unclosed unclosed_body).
  { apply (unclosed_tagged _ EmptyString unclosed_body); reflexivity. }
  split; [exact H | exact (json_text_unclosed _ _ H)].
Defined.

(** The closing brace of the sample reply is lost, and decoding fails. *)
Example reply_unclosed_cut :
  json_text reply_unclosed = "{" +:+ quoted "strategy" +:+ ": " +:+ quoted "x"
  /\ Json.loads (json_text reply_unclosed) = Raises (JSONDecodeError "Expecting value").
Proof. split; vm_compute; reflexivity. Qed.

(** ** Company extraction *)

(** C4, as worded: the company would be the first label of the domain
    with its first letter capitalised and nothing else changed.  On a
    domain in capitals the function answers otherwise. *)
Lemma company_first_letter_only_fails :
  company_rule capitalize_first_letter "x@ACME.io" "ACME"
  /\ extract_company_from_email "x@ACME.io" = "Acme"
  /\ extract_company_from_email "x@ACME.io" <> "ACME".
Proof.
  split; [| split; [reflexivity | discriminate]].
  apply (company_label capitalize_first_letter _ "x" "ACME" ".io"); reflexivity.
Qed.

(** C4, amended.  For every string the function answers [Company] when
    there is no [@], and otherwise the first label of the second segment
    with its first character upper-cased and all its other characters
    lower-cased; and this determines its answer. *)
Theorem extract_company_rule (email c : string) :
  company_rule Py.capitalize email c <-> extract_company_from_email email = c.
Proof.
  rewrite extract_company_eq. split.
  - intros [Hno | local label tail -> Hlocal Hat Hdot Hend].
    + now rewrite Hno.
    + rewrite has_char_append. simpl. rewrite Bool.orb_true_r.
      change (local +:+ "@" +:+ label +:+ tail)
        with (local +:+ String "@" (label +:+ tail)).
      now rewrite (after_append _ _ _ Hlocal), (first_label _ _ Hat Hdot Hend).
  - intros <-. destruct (has_char "@" email) eqn:Hat.
    + destruct (before_after _ _ Hat) as [Hemail Hlocal].
      destruct (label_split (after "@" email)) as (tail & Hrest & Hl1 & Hl2 & Hend).
      apply (company_label _ _ (before "@" email) _ tail); try assumption.
      rewrite Hemail at 1. now rewrite Hrest at 1.
    + now apply company_default.
Qed.

Lemma extract_company_rule_witness :
  extract_company_from_email "alice@acme.io" = "Acme"
  /\ extract_company_from_email "bob@sub.example.com" = "Sub"
  /\ extract_company_from_email "not-an-email" = "Company".
Proof.
  split; [| split].
  - apply (proj1 (extract_company_rule "alice@acme.io" "Acme")).
    apply (company_label Py.capitalize _ "alice" "acme" ".io"); reflexivity.
  - apply (proj1 (extract_company_rule "bob@sub.example.com" "Sub")).
    apply (company_label Py.capitalize _ "bob" "sub" ".example.com"); reflexivity.
  - apply (proj1 (extract_company_rule "not-an-email" "Company")).
    apply company_default; reflexivity.
Defined.

(** An empty first label is capitalised to the empty string. *)
Example extract_company_empty_domain : extract_company_from_email "alice@" = EmptyString.
Proof. reflexivity. Qed.

(** ** The fallback brief *)

Lemma fallback_profile_unresearched (x : Attendee) :
  exists p, fallback_profile x = PDict p /\ unresearched x p.
Proof.
  eexists. split; [reflexivity |].
  unfold unresearched. repeat split; reflexivity.
Qed.

(** C5.  For a non-empty list the fallback brief holds one profile per
    attendee, in order, with the attendee's name and email, the role
    [Role not yet researched], the company extracted from the email, the
    background [Research in progress...] and empty [recent_activity] and
    [key_fact]; three fixed conversation starters, the second of which
    names the company of the first attendee; three fixed questions; one
    fixed strategy; and the clock reading. *)
Theorem fallback_brief_content (now : string) (a : Attendee) (rest : list Attendee) :
  exists (d : gmap string pyval) (profiles : list pyval),
    generate_fallback_brief now (a :: rest) = Returns (PDict d)
    /\ d !! "attendees" = Some (PList profiles)
    /\ length profiles = length (a :: rest)
    /\ (forall (i : nat) (x : Attendee), (a :: rest) !! i = Some x ->
          exists p, profiles !! i = Some (PDict p) /\ unresearched x p)
    /\ d !! "conversation_starters" = Some (PList
         [ PStr "Thank you for taking the time to meet today";
           PStr ("I'm excited to learn more about " +:+ extract_company_from_email (email a));
           PStr "What are your top priorities for this quarter?" ])
    /\ d !! "questions_to_ask" = Some (PList
         [ PStr "What challenges are you currently facing?";
           PStr "What does success look like for you?";
           PStr "How can we best support your goals?" ])
    /\ d !! "strategy" = Some (PStr "Focus on building rapport, understanding their needs, and exploring potential collaboration opportunities.")
    /\ d !! "generated_at" = Some (PStr now)
    /\ size d = 5%nat.
Proof.
  eexists. exists (map fallback_profile (a :: rest)).
  split; [reflexivity |].
  split; [reflexivity |].
  split; [apply length_map |].
  split; [| repeat split; reflexivity].
  intros i x Hi.
  destruct (fallback_profile_unresearched x) as (p & Hp & Hfields).
  exists p. split; [| exact Hfields].
  rewrite <- Hp. change (map fallback_profile (a :: rest)) with (fallback_profile <$> (a :: rest)).
  now rewrite list_lookup_fmap, Hi.
Qed.

Lemma lookup_insert_both (k key : string) (v : pyval) (m1 m2 : gmap string pyval) :
  m1 !! k = m2 !! k -> <[key := v]> m1 !! k = <[key := v]> m2 !! k.
Proof. intros H. rewrite !lookup_insert. now case_decide. Qed.

(** C7.  Two runs of the fallback on the same non-empty list agree on
    every entry but [generated_at], which holds the clock reading of
    each run. *)
Theorem fallback_brief_deterministic (now1 now2 : string) (a : Attendee) (rest : list Attendee) :
  exists d1 d2 : gmap string pyval,
    generate_fallback_brief now1 (a :: rest) = Returns (PDict d1)
    /\ generate_fallback_brief now2 (a :: rest) = Returns (PDict d2)
    /\ (forall k : string, k <> "generated_at" -> d1 !! k = d2 !! k)
    /\ d1 !! "generated_at" = Some (PStr now1)
    /\ d2 !! "generated_at" = Some (PStr now2).
Proof.
  do 2 eexists. split; [reflexivity |]. split; [reflexivity |].
  split; [| split; reflexivity].
  intros k Hk. do 4 apply lookup_insert_both.
  now rewrite !lookup_insert_ne.
Qed.

(** ** The generator *)

Lemma generate_meeting_brief_unfold
    (messages_create : string -> outcome (list content_block))
    (json_loads : string -> outcome pyval)
    (title time : string) (attendees : list Attendee) (t_prompt t_fallback : string) :
  generate_meeting_brief messages_create json_loads title time attendees t_prompt t_fallback
  = match research messages_create json_loads
            (prompt title time (attendee_info attendees) t_prompt) with
    | Returns brief => Returns brief
    | Raises _ => generate_fallback_brief t_fallback attendees
    end.
Proof. reflexivity. Qed.

Lemma fallback_returns (now : string) (attendees : list Attendee) :
  attendees <> [] -> exists brief, generate_fallback_brief now attendees = Returns brief.
Proof.
  destruct attendees as [|a rest]; [congruence |]. intros _. now eexists.
Qed.

Lemma fallback_raises (now : string) :
  generate_fallback_brief now [] = Raises (IndexError "list index out of range").
Proof. reflexivity. Qed.

(** The endpoint rebuilds each attendee from its two fields. *)
Lemma rebuilt_attendees (attendees : list Attendee) :
  map (fun a => mk_attendee (email a) (name a)) attendees = attendees.
Proof.
  induction attendees as [|[e n] rest IH]; simpl; [reflexivity | now rewrite IH].
Qed.

Lemma setitem_returns (obj : pyval) (key : string) (v body : pyval) :
  setitem obj key v = Returns body ->
  exists d, obj = PDict d /\ body = PDict (<[key := v]> d).
Proof.
  destruct obj; simpl; intros H; try discriminate.
  injection H as <-. now eexists.
Qed.

(** C1.  With at least one attendee the generator always returns: a
    failure of the research path, be it the call to the provider or the
    decoding of what was extracted from the reply, is turned into the
    fallback brief of the attendees, and no exception leaves the
    function. *)
Theorem generator_falls_back
    (messages_create : string -> outcome (list content_block))
    (json_loads : string -> outcome pyval)
    (title time : string) (attendees : list Attendee) (t_prompt t_fallback : string) :
  attendees <> [] ->
  (exists brief,
     generate_meeting_brief messages_create json_loads title time attendees t_prompt t_fallback
     = Returns brief)
  /\ (forall e,
        research messages_create json_loads
          (prompt title time (attendee_info attendees) t_prompt) = Raises e ->
        exists fallback,
          generate_fallback_brief t_fallback attendees = Returns fallback
          /\ generate_meeting_brief messages_create json_loads title time attendees
               t_prompt t_fallback = Returns fallback).
Proof.
  intros Hne. destruct (fallback_returns t_fallback attendees Hne) as [fb Hfb].
  rewrite generate_meeting_brief_unfold.
  destruct (research _ _ _) as [brief | e0].
  - split; [now exists brief | discriminate].
  - split; [now exists fb |]. intros e _. now exists fb.
Qed.

(** The provider is down, or its reply is cut inside the object: in both
    cases the caller gets the fallback brief. *)
Lemma generator_falls_back_witness :
  [alice; bob] <> []
  /\ (exists brief,
        generate_meeting_brief provider_down Json.loads "Sync" "10:00" [alice; bob] "T1" "T2"
        = Returns brief)
  /\ generate_meeting_brief (provider_says reply_truncated) Json.loads "Sync" "10:00"
       [alice; bob] "T1" "T2"
     = generate_fallback_brief "T2" [alice; bob].
Proof.
  assert (Hne : [alice; bob] <> []) by discriminate.
  split; [exact Hne |]. split.
  - exact (proj1 (generator_falls_back provider_down Json.loads "Sync" "10:00"
                    [alice; bob] "T1" "T2" Hne)).
  - destruct (proj2 (generator_falls_back (provider_says reply_truncated) Json.loads
                       "Sync" "10:00" [alice; bob] "T1" "T2" Hne)
                (JSONDecodeError "Expecting value"))
      as (fb & Hfb & Hgen).
    + vm_compute. reflexivity.
    + now rewrite Hgen, Hfb.
Defined.

(** C8.  When the text extracted from the reply decodes, the generator
    returns the decoded value as it is: nothing is added, removed or
    checked. *)
Theorem generator_returns_decoded
    (messages_create : string -> outcome (list content_block))
    (json_loads : string -> outcome pyval)
    (title time : string) (attendees : list Attendee) (t_prompt t_fallback : string)
    (content : list content_block) (v : pyval) :
  messages_create (prompt title time (attendee_info attendees) t_prompt) = Returns content ->
  json_loads (json_text (brief_text content)) = Returns v ->
  generate_meeting_brief messages_create json_loads title time attendees t_prompt t_fallback
  = Returns v.
Proof.
  intros Hcall Hloads. rewrite generate_meeting_brief_unfold.
  unfold research. rewrite Hcall. simpl. now rewrite Hloads.
Qed.

(** A reply whose object lacks most of the expected keys and has one of
    its own comes back unchanged. *)
Lemma generator_returns_decoded_witness :
  generate_meeting_brief (provider_says reply_tagged) Json.loads "Sync" "10:00" [alice] "T1" "T2"
  = Returns (dict [("strategy", PStr "x"); ("meeting_id", PStr "from-model")]).
Proof.
  apply (generator_returns_decoded (provider_says reply_tagged) Json.loads "Sync" "10:00"
           [alice] "T1" "T2" [mk_block "server_tool_use" EmptyString; mk_block "text" reply_tagged]).
  - reflexivity.
  - vm_compute. reflexivity.
Defined.

Example generator_returns_decoded_example :
  generate_meeting_brief (provider_says reply_tagged) Json.loads
    (meeting_title request_m1) (meeting_time request_m1) (attendees request_m1) "T1" "T2"
  = Returns (dict [("strategy", PStr "x"); ("meeting_id", PStr "from-model")]).
Proof. vm_compute. reflexivity. Qed.

(** C9.  With an empty list of attendees a failure of the research path
    is not absorbed: the fallback indexes the first attendee inside the
    handler, and the [IndexError] leaves the generator. *)
Theorem generator_raises_on_empty
    (messages_create : string -> outcome (list content_block))
    (json_loads : string -> outcome pyval)
    (title time t_prompt t_fallback : string) (e : exn) :
  research messages_create json_loads (prompt title time (attendee_info []) t_prompt)
  = Raises e ->
  generate_meeting_brief messages_create json_loads title time [] t_prompt t_fallback
  = Raises (IndexError "list index out of range").
Proof.
  intros Hfail. rewrite generate_meeting_brief_unfold, Hfail. apply fallback_raises.
Qed.

Lemma generator_raises_on_empty_witness :
  generate_meeting_brief provider_down Json.loads "Sync" "10:00" [] "T1" "T2"
  = Raises (IndexError "list index out of range").
Proof.
  apply (generator_raises_on_empty provider_down Json.loads "Sync" "10:00" "T1" "T2"
           (mk_exn "APIConnectionError" "Connection error.")).
  reflexivity.
Defined.

(** ** The endpoint *)

(** C2.  Whenever the handler returns a brief, the brief is the dict the
    generator produced with [meeting_id] set to the identifier of the
    request, whatever the generator had under that key, and with every
    other key as the generator left it. *)
Theorem response_meeting_id
    (messages_create : string -> outcome (list content_block))
    (json_loads : string -> outcome pyval)
    (request : BriefRequest) (t_prompt t_fallback : string) (body : pyval) :
  generate_brief messages_create json_loads request t_prompt t_fallback = Response body ->
  exists generated d : gmap string pyval,
    generate_meeting_brief messages_create json_loads
      (meeting_title request) (meeting_time request) (attendees request) t_prompt t_fallback
    = Returns (PDict generated)
    /\ body = PDict d
    /\ d !! "meeting_id" = Some (PStr (meeting_id request))
    /\ (forall k : string, k <> "meeting_id" -> d !! k = generated !! k).
Proof.
  unfold generate_brief, brief_with_id. rewrite rebuilt_attendees.
  destruct (generate_meeting_brief _ _ _ _ _ _ _) as [brief | e]; simpl; [| discriminate].
  destruct (setitem brief "meeting_id" _) as [b | e] eqn:Hset; [| discriminate].
  intros [= <-].
  destruct (setitem_returns _ _ _ _ Hset) as (generated & -> & ->).
  exists generated, (<["meeting_id" := PStr (meeting_id request)]> generated).
  repeat split.
  - apply lookup_insert_eq.
  - intros k Hk. now apply lookup_insert_ne.
Qed.

(** The model answered with an identifier of its own; the response
    carries the one of the request. *)
Lemma response_meeting_id_witness :
  let body := dict [("strategy", PStr "x"); ("meeting_id", PStr "m1")] in
  generate_brief (provider_says reply_tagged) Json.loads request_m1 "T1" "T2" = Response body
  /\ exists generated d : gmap string pyval,
       generate_meeting_brief (provider_says reply_tagged) Json.loads
         "Sync" "2025-01-01T10:00" [mk_attendee "a@acme.io" "A"] "T1" "T2"
       = Returns (PDict generated)
       /\ body = PDict d
       /\ d !! "meeting_id" = Some (PStr "m1")
       /\ (forall k : string, k <> "meeting_id" -> d !! k = generated !! k).
Proof.
  intros body.
  assert (H : generate_brief (provider_says reply_tagged) Json.loads request_m1 "T1" "T2"
              = Response body) by (vm_compute; reflexivity).
  split; [exact H |].
  exact (response_meeting_id (provider_says reply_tagged) Json.loads request_m1
           "T1" "T2" body H).
Defined.

(** The handler function alone: an exception raised in its [try], by the
    generator or by the assignment of [meeting_id], becomes an
    [HTTPException] of status 500 whose detail is
    [Error generating brief: ] followed by the text of the exception, and
    the function raises nothing else.  What the route does with a value
    the handler returns is a matter for [post_generate_brief]. *)
Lemma handler_error_mapping
    (messages_create : string -> outcome (list content_block))
    (json_loads : string -> outcome pyval)
    (request : BriefRequest) (t_prompt t_fallback : string) :
  let generated :=
    generate_meeting_brief messages_create json_loads
      (meeting_title request) (meeting_time request) (attendees request) t_prompt t_fallback in
  let result := generate_brief messages_create json_loads request t_prompt t_fallback in
  (forall e, generated = Raises e ->
     result = HTTPException 500 ("Error generating brief: " +:+ exn_str e))
  /\ (forall brief e,
        generated = Returns brief ->
        setitem brief "meeting_id" (PStr (meeting_id request)) = Raises e ->
        result = HTTPException 500 ("Error generating brief: " +:+ exn_str e))
  /\ (forall status detail,
        result = HTTPException status detail ->
        status = 500
        /\ exists e,
             detail = "Error generating brief: " +:+ exn_str e
             /\ (generated = Raises e
                 \/ exists brief,
                      generated = Returns brief
                      /\ setitem brief "meeting_id" (PStr (meeting_id request)) = Raises e)).
Proof.
  intros generated result. subst generated result.
  unfold generate_brief, brief_with_id. rewrite rebuilt_attendees.
  destruct (generate_meeting_brief _ _ _ _ _ _ _) as [brief | e0]; simpl.
  - split; [discriminate |]. split.
    + intros brief' e [= <-] ->. reflexivity.
    + intros status detail.
      destruct (setitem brief "meeting_id" _) as [b | e] eqn:Hset; [discriminate |].
      intros [= <- <-]. split; [reflexivity |].
      exists e. split; [reflexivity |]. right. now exists brief.
  - split; [now intros e [= <-] |]. split; [discriminate |].
    intros status detail [= <- <-]. split; [reflexivity |].
    exists e0. split; [reflexivity |]. now left.
Qed.

(** No attendee and no provider: the [IndexError] of the generator
    becomes the [HTTPException]. *)
Example handler_error_on_empty :
  generate_brief provider_down Json.loads request_empty "T1" "T2"
  = HTTPException 500 "Error generating brief: list index out of range".
Proof. reflexivity. Qed.

(** A reply that decodes to a list: the assignment of [meeting_id] fails. *)
Example endpoint_rejects_list :
  generate_brief (provider_says "[1, 2]") Json.loads request_m1 "T1" "T2"
  = HTTPException 500
      "Error generating brief: list indices must be integers or slices, not str".
Proof. vm_compute. reflexivity. Qed.

(** The end-to-end case of the specification: the generator is forced to
    fail, and the response carries the identifier of the request, the
    company of the attendee and three conversation starters. *)
Example end_to_end_fallback :
  exists d : gmap string pyval,
    generate_brief provider_down Json.loads request_m1 "T1" "T2" = Response (PDict d)
    /\ d !! "meeting_id" = Some (PStr "m1")
    /\ d !! "attendees" = Some (PList [fallback_profile (mk_attendee "a@acme.io" "A")])
    /\ extract_company_from_email "a@acme.io" = "Acme"
    /\ d !! "conversation_starters" = Some (PList
         [ PStr "Thank you for taking the time to meet today";
           PStr "I'm excited to learn more about Acme";
           PStr "What are your top priorities for this quarter?" ]).
Proof. eexists. repeat split; vm_compute; reflexivity. Qed.

(** ** The route *)

Lemma forallb_fallback_profiles (l : list Attendee) :
  forallb is_dict (map fallback_profile l) = true.
Proof. induction l as [|a l IH]; [reflexivity | exact IH]. Qed.

(** A dict with the six fields, each of its type, fits the response
    model and is sent with these fields. *)
Lemma BriefResponse_accepts (d : gmap string pyval)
    (identifier plan stamp : string) (profiles starters questions : list pyval) :
  d !! "meeting_id" = Some (PStr identifier) ->
  d !! "attendees" = Some (PList profiles) ->
  d !! "conversation_starters" = Some (PList starters) ->
  d !! "questions_to_ask" = Some (PList questions) ->
  d !! "strategy" = Some (PStr plan) ->
  d !! "generated_at" = Some (PStr stamp) ->
  forallb is_dict profiles = true ->
  forallb is_str starters = true ->
  forallb is_str questions = true ->
  BriefResponse (PDict d)
  = Some (dict [ ("meeting_id", PStr identifier);
                 ("attendees", PList profiles);
                 ("conversation_starters", PList starters);
                 ("questions_to_ask", PList questions);
                 ("strategy", PStr plan);
                 ("generated_at", PStr stamp) ]).
Proof.
  intros H1 H2 H3 H4 H5 H6 Hp Hs Hq. unfold BriefResponse.
  rewrite H1, H2, H3, H4, H5, H6. simpl. now rewrite Hp, Hs, Hq.
Qed.

(** A dict that lacks a field is refused. *)
Lemma BriefResponse_requires (d : gmap string pyval) (key : string) :
  In key ["meeting_id"; "attendees"; "conversation_starters"; "questions_to_ask";
          "strategy"; "generated_at"] ->
  d !! key = None ->
  BriefResponse (PDict d) = None.
Proof.
  unfold BriefResponse. simpl.
  intros [<- | [<- | [<- | [<- | [<- | [<- | []]]]]]] Hnone; rewrite Hnone;
    repeat (match goal with |- context [?m !! ?k] => destruct (m !! k) end; simpl);
    reflexivity.
Qed.

(** The route on a dict of the generator: the response model decides. *)
Lemma route_on_dict
    (response_model : pyval -> option pyval)
    (messages_create : string -> outcome (list content_block))
    (json_loads : string -> outcome pyval)
    (request : BriefRequest) (t_prompt t_fallback : string) (d : gmap string pyval) :
  generate_meeting_brief messages_create json_loads
    (meeting_title request) (meeting_time request) (attendees request) t_prompt t_fallback
  = Returns (PDict d) ->
  post_generate_brief response_model messages_create json_loads request t_prompt t_fallback
  = match response_model (PDict (<["meeting_id" := PStr (meeting_id request)]> d)) with
    | Some sent => Answer200 sent
    | None => AnswerServerError
    end.
Proof.
  intros Hgen. unfold post_generate_brief, generate_brief, brief_with_id.
  now rewrite rebuilt_attendees, Hgen.
Qed.

(** The fallback brief with the identifier of the request fits the
    response model. *)
Lemma fallback_fits (now identifier : string) (a : Attendee) (rest : list Attendee) :
  exists (fb : gmap string pyval) (sent : pyval),
    generate_fallback_brief now (a :: rest) = Returns (PDict fb)
    /\ BriefResponse (PDict (<["meeting_id" := PStr identifier]> fb)) = Some sent.
Proof.
  do 2 eexists. split; [reflexivity |].
  eapply BriefResponse_accepts; try reflexivity.
  apply (forallb_fallback_profiles (a :: rest)).
Qed.

(** C6, as worded: every failure that reaches the caller of the route
    would be a 500 whose detail starts with [Error generating brief: ].
    A reply that decodes to the empty object is returned by the handler
    with the identifier alone, is refused by the response model after
    the handler has returned, and reaches the caller as the bare 500 of
    the framework. *)
Lemma endpoint_bare_server_error :
  generate_brief (provider_says "{}") Json.loads request_m1 "T1" "T2"
  = Response (dict [("meeting_id", PStr "m1")])
  /\ post_generate_brief BriefResponse (provider_says "{}") Json.loads request_m1 "T1" "T2"
     = AnswerServerError
  /\ forall detail,
       post_generate_brief BriefResponse (provider_says "{}") Json.loads request_m1 "T1" "T2"
       <> AnswerError 500 ("Error generating brief: " +:+ detail).
Proof.
  assert (H : post_generate_brief BriefResponse (provider_says "{}") Json.loads
                request_m1 "T1" "T2" = AnswerServerError) by (vm_compute; reflexivity).
  split; [vm_compute; reflexivity |]. split; [exact H |].
  intros detail. rewrite H. discriminate.
Qed.

(** C6, amended.  An exception raised in the [try] of the handler, by
    the generator or by the assignment of [meeting_id], reaches the
    caller as a 500 whose detail is [Error generating brief: ] followed
    by the text of the exception, and the handler raises nothing else.
    The one other failure of the route is the bare 500 of the framework,
    which the caller gets exactly when the handler returned a value that
    the response model refuses. *)
Theorem endpoint_failure_shapes
    (response_model : pyval -> option pyval)
    (messages_create : string -> outcome (list content_block))
    (json_loads : string -> outcome pyval)
    (request : BriefRequest) (t_prompt t_fallback : string) :
  let generated :=
    generate_meeting_brief messages_create json_loads
      (meeting_title request) (meeting_time request) (attendees request) t_prompt t_fallback in
  let answer :=
    post_generate_brief response_model messages_create json_loads request t_prompt t_fallback in
  (forall e, generated = Raises e ->
     answer = AnswerError 500 ("Error generating brief: " +:+ exn_str e))
  /\ (forall brief e,
        generated = Returns brief ->
        setitem brief "meeting_id" (PStr (meeting_id request)) = Raises e ->
        answer = AnswerError 500 ("Error generating brief: " +:+ exn_str e))
  /\ (forall status detail,
        answer = AnswerError status detail ->
        status = 500
        /\ exists e,
             detail = "Error generating brief: " +:+ exn_str e
             /\ (generated = Raises e
                 \/ exists brief,
                      generated = Returns brief
                      /\ setitem brief "meeting_id" (PStr (meeting_id request)) = Raises e))
  /\ (answer = AnswerServerError
      <-> exists brief body,
            generated = Returns brief
            /\ setitem brief "meeting_id" (PStr (meeting_id request)) = Returns body
            /\ response_model body = None).
Proof.
  intros generated answer. subst generated answer.
  unfold post_generate_brief, generate_brief, brief_with_id. rewrite rebuilt_attendees.
  destruct (generate_meeting_brief _ _ _ _ _ _ _) as [brief | e0]; simpl.
  - destruct (setitem brief "meeting_id" _) as [body | e] eqn:Hset.
    + split; [discriminate |]. split.
      { intros brief' e [= <-] H. rewrite Hset in H. discriminate H. }
      split.
      * intros status detail. destruct (response_model body); discriminate.
      * split.
        -- intros Hbare. exists brief, body. repeat split; try assumption.
           destruct (response_model body); [discriminate | reflexivity].
        -- intros (brief' & body' & [= <-] & Hret & Hnone).
           rewrite Hset in Hret. injection Hret as <-. now rewrite Hnone.
    + split; [discriminate |]. split.
      { intros brief' e' [= <-] H. rewrite Hset in H. now injection H as <-. }
      split.
      * intros status detail [= <- <-]. split; [reflexivity |].
        exists e. split; [reflexivity |]. right. now exists brief.
      * split; [discriminate |]. intros (brief' & body' & [= <-] & Hret & _).
        rewrite Hset in Hret. discriminate Hret.
  - split; [now intros e [= <-] |]. split; [discriminate |]. split.
    + intros status detail [= <- <-]. split; [reflexivity |].
      exists e0. split; [reflexivity |]. now left.
    + split; [discriminate |]. intros (brief & body & Hgen & _). discriminate.
Qed.

(** With no attendee and no provider, the [IndexError] of the generator
    reaches the caller with the detail of the handler. *)
Lemma endpoint_failure_shapes_witness :
  post_generate_brief BriefResponse provider_down Json.loads request_empty "T1" "T2"
  = AnswerError 500 "Error generating brief: list index out of range".
Proof.
  apply (proj1 (endpoint_failure_shapes BriefResponse provider_down Json.loads
                  request_empty "T1" "T2")
           (IndexError "list index out of range")).
  reflexivity.
Defined.

(** * Further properties *)

(** ** What the extraction returns *)

Lemma contains_part (sub p u q : string) :
  Py.contains sub (p +:+ u +:+ q) = false -> Py.contains sub u = false.
Proof.
  intros Hno. destruct (Py.contains sub u) eqn:Hin; [| reflexivity].
  apply contains_spec in Hin as (a & b & ->).
  rewrite <- Hno. symmetry. apply contains_spec.
  exists (p +:+ a), (b +:+ q). now rewrite !append_assoc.
Qed.

Lemma drop_last_prefix (s : string) : exists r, s = drop_last s +:+ r.
Proof.
  induction s as [|c s [r IH]]; [now exists EmptyString |].
  destruct s as [|c' s]; [now exists (String c EmptyString) |].
  exists r.
  change (String c (String c' s) = String c (drop_last (String c' s) +:+ r)).
  f_equal. exact IH.
Qed.

(** The text extracted is the trimmed form of a part of the reply that
    holds no fence. *)
Lemma json_text_part (s : string) :
  exists p u q,
    s = p +:+ u +:+ q /\ Py.contains fence u = false /\ json_text s = Py.strip u.
Proof.
  assert (Hclosed : forall mid : string,
             first_at "``" mid "`" -> Py.contains fence mid = false).
  { intros mid Hmid. exact (contains_part fence EmptyString mid "``" Hmid). }
  assert (Hopen : forall rest : string, Py.contains fence rest = false ->
             exists r, rest = drop_last rest +:+ r
                       /\ Py.contains fence (drop_last rest) = false).
  { intros rest Hrest. destruct (drop_last_prefix rest) as [r Hr].
    exists r. split; [exact Hr |].
    apply (contains_part fence EmptyString (drop_last rest) r). simpl.
    now rewrite <- Hr. }
  rewrite json_text_unfold.
  destruct (Py.contains fence_json s) eqn:Htag.
  - destruct (first_occurrence "```jso" "n" s Htag) as (pre & q & Hs & Hpre).
    change ("```jso" +:+ String "n" EmptyString) with fence_json in Hs. subst s.
    destruct (tagged_branch pre q Hpre) as [_ ->].
    destruct (Py.contains fence q) eqn:Hclose.
    + destruct (first_occurrence "``" "`" q Hclose) as (mid & post & -> & Hmid).
      change ("``" +:+ String "`" EmptyString) with fence.
      exists (pre +:+ fence_json), mid, (fence +:+ post).
      split; [now rewrite append_assoc |]. split; [now apply Hclosed |].
      f_equal. now apply closed_fence_slice.
    + destruct (Hopen q Hclose) as (r & Hr & Hno).
      exists (pre +:+ fence_json), (drop_last q), r.
      split; [now rewrite append_assoc, <- Hr |]. split; [exact Hno |].
      f_equal. now apply open_fence_slice.
  - destruct (Py.contains fence s) eqn:Hfence.
    + destruct (first_occurrence "``" "`" s Hfence) as (pre & q & Hs & Hpre).
      change ("``" +:+ String "`" EmptyString) with fence in Hs. subst s.
      destruct (untagged_branch pre q Hpre) as [_ ->].
      destruct (Py.contains fence q) eqn:Hclose.
      * destruct (first_occurrence "``" "`" q Hclose) as (mid & post & -> & Hmid).
        change ("``" +:+ String "`" EmptyString) with fence.
        exists (pre +:+ fence), mid, (fence +:+ post).
        split; [now rewrite append_assoc |]. split; [now apply Hclosed |].
        f_equal. now apply closed_fence_slice.
      * destruct (Hopen q Hclose) as (r & Hr & Hno).
        exists (pre +:+ fence), (drop_last q), r.
        split; [now rewrite append_assoc, <- Hr |]. split; [exact Hno |].
        f_equal. now apply open_fence_slice.
    + exists EmptyString, s, EmptyString. simpl. now rewrite append_empty_r.
Qed.

Lemma lstrip_id (s : string) : starts_with_space s = false -> Py.lstrip s = s.
Proof. destruct s as [|c s]; simpl; [reflexivity | now intros ->]. Qed.

Lemma rstrip_cons (c : ascii) (s : string) :
  Py.rstrip (String c s)
  = match Py.rstrip s with
    | EmptyString => if Py.isspace c then EmptyString else String c EmptyString
    | String c' r => String c (String c' r)
    end.
Proof. reflexivity. Qed.

Lemma rstrip_id (s : string) : ends_with_space s = false -> Py.rstrip s = s.
Proof.
  induction s as [|c s IH]; [reflexivity |].
  destruct s as [|c' s].
  - simpl. now intros ->.
  - intros H. change (ends_with_space (String c' s) = false) in H.
    rewrite rstrip_cons, (IH H). reflexivity.
Qed.

Lemma strip_strip (s : string) : Py.strip (Py.strip s) = Py.strip s.
Proof.
  destruct (strip_spec s) as (l & r & _ & _ & _ & Hstart & Hend).
  unfold Py.strip at 1. now rewrite (lstrip_id _ Hstart), (rstrip_id _ Hend).
Qed.

(** X1.  The text handed to the decoder never starts or ends with
    whitespace, whichever branch extracted it. *)
Theorem json_text_trimmed (s : string) :
  starts_with_space (json_text s) = false /\ ends_with_space (json_text s) = false.
Proof.
  destruct (json_text_part s) as (p & u & q & _ & _ & ->).
  destruct (strip_spec u) as (l & r & _ & _ & _ & Hstart & Hend).
  now split.
Qed.

(** X2.  The text handed to the decoder is a contiguous part of the
    reply: the extraction only cuts, it writes nothing of its own. *)
Theorem json_text_within_reply (s : string) :
  Py.contains (json_text s) s = true.
Proof.
  destruct (json_text_part s) as (p & u & q & Hs & _ & ->).
  destruct (strip_spec u) as (l & r & Hu & _).
  apply contains_spec. exists (p +:+ l), (r +:+ q).
  rewrite Hs at 1. rewrite Hu at 1. now rewrite !append_assoc.
Qed.

(** X3.  No fence survives the extraction: the text handed to the
    decoder holds no run of three backquotes. *)
Theorem json_text_no_fence (s : string) :
  Py.contains fence (json_text s) = false.
Proof.
  destruct (json_text_part s) as (p & u & q & _ & Hno & ->).
  destruct (strip_spec u) as (l & r & Hu & _).
  apply (contains_part fence l (Py.strip u) r). now rewrite <- Hu.
Qed.

(** X4.  Extracting twice is extracting once. *)
Theorem json_text_idempotent (s : string) :
  json_text (json_text s) = json_text s.
Proof.
  destruct (json_text_part s) as (p & u & q & _ & Hno & Heq).
  destruct (strip_spec u) as (l & r & Hu & _).
  assert (Hstrip : Py.contains fence (Py.strip u) = false).
  { apply (contains_part fence l (Py.strip u) r). now rewrite <- Hu. }
  rewrite Heq, (json_text_plain _ Hstrip). apply strip_strip.
Qed.

(** ** The text of the reply *)

Lemma brief_text_from (content : list content_block) (acc : string) :
  fold_left
    (fun acc block => if String.eqb (block_type block) "text" then acc +:+ block_text block else acc)
    content acc
  = acc +:+ concat_all (texts content).
Proof.
  revert acc; induction content as [|block content IH]; intros acc; simpl.
  - now rewrite append_empty_r.
  - rewrite IH. unfold texts, is_text. simpl.
    destruct (String.eqb (block_type block) "text"); simpl; [| reflexivity].
    now rewrite append_assoc.
Qed.

(** X5.  The text of the reply is the texts of its text blocks, one
    after the other in the order of the reply; blocks of any other type
    add nothing, wherever they stand, and the text of two replies put
    end to end is the two texts put end to end. *)
Theorem brief_text_concat (content more : list content_block) :
  brief_text content = concat_all (texts content)
  /\ brief_text (content ++ more) = brief_text content +:+ brief_text more.
Proof.
  assert (H : forall l, brief_text l = concat_all (texts l)).
  { intros l. unfold brief_text. now rewrite brief_text_from. }
  split; [apply H |].
  unfold brief_text at 1. rewrite fold_left_app, !brief_text_from. simpl.
  now rewrite !H.
Qed.

(** ** The company of an email *)

Lemma lower_char_sep (c : ascii) :
  Ascii.eqb (Py.lower_char c) "@" = Ascii.eqb c "@"
  /\ Ascii.eqb (Py.lower_char c) "." = Ascii.eqb c ".".
Proof. destruct c as [[] [] [] [] [] [] [] []]; split; reflexivity. Qed.

Lemma upper_char_sep (c : ascii) :
  Ascii.eqb (Py.upper_char c) "@" = Ascii.eqb c "@"
  /\ Ascii.eqb (Py.upper_char c) "." = Ascii.eqb c ".".
Proof. destruct c as [[] [] [] [] [] [] [] []]; split; reflexivity. Qed.

Lemma case_char (c : ascii) :
  Py.upper_char (Py.lower_char c) = Py.upper_char c
  /\ Py.lower_char (Py.lower_char c) = Py.lower_char c.
Proof. destruct c as [[] [] [] [] [] [] [] []]; split; reflexivity. Qed.

Lemma lower_char_eqb (sep c : ascii) :
  sep = "@"%char \/ sep = "."%char ->
  Ascii.eqb (Py.lower_char c) sep = Ascii.eqb c sep.
Proof. intros [-> | ->]; apply lower_char_sep. Qed.

Lemma upper_char_eqb (sep c : ascii) :
  sep = "@"%char \/ sep = "."%char ->
  Ascii.eqb (Py.upper_char c) sep = Ascii.eqb c sep.
Proof. intros [-> | ->]; apply upper_char_sep. Qed.

Lemma lower_has_char (sep : ascii) (s : string) :
  sep = "@"%char \/ sep = "."%char ->
  has_char sep (Py.lower s) = has_char sep s.
Proof.
  intros Hsep. induction s as [|c s IH]; simpl; [reflexivity |].
  now rewrite IH, (lower_char_eqb sep c Hsep).
Qed.

Lemma lower_before (sep : ascii) (s : string) :
  sep = "@"%char \/ sep = "."%char ->
  before sep (Py.lower s) = Py.lower (before sep s).
Proof.
  intros Hsep. induction s as [|c s IH]; simpl; [reflexivity |].
  rewrite (lower_char_eqb sep c Hsep).
  destruct (Ascii.eqb c sep); simpl; [reflexivity | now rewrite IH].
Qed.

Lemma lower_after (sep : ascii) (s : string) :
  sep = "@"%char \/ sep = "."%char ->
  after sep (Py.lower s) = Py.lower (after sep s).
Proof.
  intros Hsep. induction s as [|c s IH]; simpl; [reflexivity |].
  rewrite (lower_char_eqb sep c Hsep).
  destruct (Ascii.eqb c sep); [reflexivity | exact IH].
Qed.

Lemma lower_lower (s : string) : Py.lower (Py.lower s) = Py.lower s.
Proof.
  induction s as [|c s IH]; simpl; [reflexivity |].
  now rewrite IH, (proj2 (case_char c)).
Qed.

Lemma capitalize_lower (s : string) : Py.capitalize (Py.lower s) = Py.capitalize s.
Proof.
  destruct s as [|c s]; simpl; [reflexivity |].
  now rewrite lower_lower, (proj1 (case_char c)).
Qed.

Lemma capitalize_has_char (sep : ascii) (s : string) :
  sep = "@"%char \/ sep = "."%char ->
  has_char sep (Py.capitalize s) = has_char sep s.
Proof.
  intros Hsep. destruct s as [|c s]; simpl; [reflexivity |].
  now rewrite (upper_char_eqb sep c Hsep), (lower_has_char sep s Hsep).
Qed.

(** X6.  The company does not depend on the case of the letters of the
    email: an email and its lower-cased form give the same company. *)
Theorem extract_company_ignores_case (email : string) :
  extract_company_from_email (Py.lower email) = extract_company_from_email email.
Proof.
  rewrite !extract_company_eq.
  rewrite lower_has_char by now left.
  destruct (has_char "@" email); [| reflexivity].
  rewrite lower_after by now left.
  rewrite lower_before by now left.
  rewrite lower_before by now right.
  apply capitalize_lower.
Qed.

(** X7.  The company depends on the domain alone: two emails with the
    same text after their first [@] give the same company. *)
Theorem extract_company_same_domain (local1 local2 domain : string) :
  has_char "@" local1 = false ->
  has_char "@" local2 = false ->
  extract_company_from_email (local1 +:+ "@" +:+ domain)
  = extract_company_from_email (local2 +:+ "@" +:+ domain).
Proof.
  intros H1 H2. rewrite !extract_company_eq, !has_char_append. simpl.
  rewrite !Bool.orb_true_r.
  change (local1 +:+ "@" +:+ domain) with (local1 +:+ String "@" domain).
  change (local2 +:+ "@" +:+ domain) with (local2 +:+ String "@" domain).
  now rewrite (after_append _ _ _ H1), (after_append _ _ _ H2).
Qed.

Lemma extract_company_same_domain_witness :
  extract_company_from_email ("alice" +:+ "@" +:+ "acme.io")
  = extract_company_from_email ("bob.smith" +:+ "@" +:+ "acme.io").
Proof.
  apply (extract_company_same_domain "alice" "bob.smith" "acme.io"); reflexivity.
Defined.

(** X8.  The company never holds a dot or an [@], whatever the email. *)
Theorem extract_company_no_separator (email : string) :
  has_char "@" (extract_company_from_email email) = false
  /\ has_char "." (extract_company_from_email email) = false.
Proof.
  rewrite extract_company_eq.
  destruct (has_char "@" email); [| split; reflexivity].
  destruct (label_split (after "@" email)) as (tail & _ & Hat & Hdot & _).
  split.
  - rewrite capitalize_has_char by now left. exact Hat.
  - rewrite capitalize_has_char by now right. exact Hdot.
Qed.

(** ** The fallback and the endpoint together *)

(** X9.  The fallback fails on the empty list and on nothing else, and
    then with the [IndexError] of [attendees[0]]. *)
Theorem fallback_raises_iff_empty (now : string) (attendees : list Attendee) (e : exn) :
  generate_fallback_brief now attendees = Raises e
  <-> attendees = [] /\ e = IndexError "list index out of range".
Proof.
  split.
  - destruct attendees as [|a rest]; [| discriminate].
    rewrite fallback_raises. intros [= <-]. now split.
  - intros [-> ->]. apply fallback_raises.
Qed.

Lemma fallback_dict (now : string) (a : Attendee) (rest : list Attendee) :
  exists fb : gmap string pyval,
    generate_fallback_brief now (a :: rest) = Returns (PDict fb)
    /\ fb !! "meeting_id" = None
    /\ dom fb = list_to_set
         ["attendees"; "conversation_starters"; "questions_to_ask"; "strategy"; "generated_at"].
Proof. eexists. split; [reflexivity |]. split; reflexivity. Qed.

(** X10.  When the research fails and the request has an attendee, the
    caller still gets a response: the fallback brief of the attendees
    with the identifier of the request added to it, that is, a dict with
    exactly the six keys of a brief. *)
Theorem endpoint_degrades
    (messages_create : string -> outcome (list content_block))
    (json_loads : string -> outcome pyval)
    (request : BriefRequest) (t_prompt t_fallback : string) (e : exn) :
  attendees request <> [] ->
  research messages_create json_loads
    (prompt (meeting_title request) (meeting_time request)
       (attendee_info (attendees request)) t_prompt) = Raises e ->
  exists fb body : gmap string pyval,
    generate_fallback_brief t_fallback (attendees request) = Returns (PDict fb)
    /\ body = <["meeting_id" := PStr (meeting_id request)]> fb
    /\ generate_brief messages_create json_loads request t_prompt t_fallback
       = Response (PDict body)
    /\ dom body = list_to_set
         ["meeting_id"; "attendees"; "conversation_starters"; "questions_to_ask";
          "strategy"; "generated_at"].
Proof.
  intros Hne Hfail. destruct (attendees request) as [|a rest] eqn:Hatt; [congruence |].
  destruct (fallback_dict t_fallback a rest) as (fb & Hfb & Hfresh & Hdom).
  exists fb, (<["meeting_id" := PStr (meeting_id request)]> fb).
  split; [exact Hfb |]. split; [reflexivity |]. split.
  - unfold generate_brief, brief_with_id.
    rewrite rebuilt_attendees, generate_meeting_brief_unfold, Hatt, Hfail, Hfb.
    reflexivity.
  - rewrite dom_insert_L, Hdom. reflexivity.
Qed.

Lemma endpoint_degrades_witness :
  exists fb body : gmap string pyval,
    generate_fallback_brief "T2" [mk_attendee "a@acme.io" "A"] = Returns (PDict fb)
    /\ body = <["meeting_id" := PStr "m1"]> fb
    /\ generate_brief provider_down Json.loads request_m1 "T1" "T2" = Response (PDict body)
    /\ dom body = list_to_set
         ["meeting_id"; "attendees"; "conversation_starters"; "questions_to_ask";
          "strategy"; "generated_at"].
Proof.
  apply (endpoint_degrades provider_down Json.loads request_m1 "T1" "T2"
           (mk_exn "APIConnectionError" "Connection error.")).
  - discriminate.
  - reflexivity.
Defined.

(** The handler function returns a value, rather than raising, in two
    cases: the reply decodes to an object, or the research fails and the
    request has an attendee.  Whether the caller then gets a brief is
    for the response model to say. *)
Lemma handler_returns_iff
    (messages_create : string -> outcome (list content_block))
    (json_loads : string -> outcome pyval)
    (request : BriefRequest) (t_prompt t_fallback : string) :
  let researched :=
    research messages_create json_loads
      (prompt (meeting_title request) (meeting_time request)
         (attendee_info (attendees request)) t_prompt) in
  (exists body, generate_brief messages_create json_loads request t_prompt t_fallback
                = Response body)
  <-> (exists d, researched = Returns (PDict d))
      \/ ((exists e, researched = Raises e) /\ attendees request <> []).
Proof.
  intros researched. subst researched.
  unfold generate_brief, brief_with_id.
  rewrite rebuilt_attendees, generate_meeting_brief_unfold.
  destruct (research _ _ _) as [v | e].
  - destruct v; simpl;
      (split;
       [ intros [body H]; try discriminate H; left; now eexists
       | intros [[d' H] | [[e H] _]]; try discriminate H; now eexists ]).
  - destruct (attendees request) as [|a rest].
    + rewrite fallback_raises. simpl. split.
      * intros [body [=]].
      * intros [[d [=]] | [_ Hne]]. congruence.
    + destruct (fallback_dict t_fallback a rest) as (fb & -> & _). simpl. split.
      * intros _. right. split; [now exists e | discriminate].
      * intros _. now eexists.
Qed.

(** X11.  The caller of the route gets a brief in two cases and no
    other: the reply decodes to an object which, once it carries the
    identifier of the request, fits the response model; or the research
    fails and the request has an attendee, the fallback brief then
    fitting the model.  A reply that decodes to anything else, an object
    that lacks a field or has one of the wrong type, and a failure with
    no attendee, end in an error. *)
Theorem endpoint_succeeds_iff
    (messages_create : string -> outcome (list content_block))
    (json_loads : string -> outcome pyval)
    (request : BriefRequest) (t_prompt t_fallback : string) :
  let researched :=
    research messages_create json_loads
      (prompt (meeting_title request) (meeting_time request)
         (attendee_info (attendees request)) t_prompt) in
  (exists sent,
     post_generate_brief BriefResponse messages_create json_loads request t_prompt t_fallback
     = Answer200 sent)
  <-> (exists d,
         researched = Returns (PDict d)
         /\ is_Some (BriefResponse (PDict (<["meeting_id" := PStr (meeting_id request)]> d))))
      \/ ((exists e, researched = Raises e) /\ attendees request <> []).
Proof.
  intros researched. subst researched.
  pose proof (generate_meeting_brief_unfold messages_create json_loads
                (meeting_title request) (meeting_time request) (attendees request)
                t_prompt t_fallback) as Hgen.
  destruct (research _ _ _) as [v | e] eqn:Hres; simpl in Hgen.
  - destruct v as [| | | | | |d];
      try (unfold post_generate_brief, generate_brief, brief_with_id;
           rewrite rebuilt_attendees, Hgen; simpl;
           split;
           [ intros [sent H]; discriminate H
           | intros [(d' & H & _) | [[e H] _]]; discriminate H ]).
    rewrite (route_on_dict BriefResponse _ _ _ _ _ d Hgen).
    destruct (BriefResponse (PDict (<["meeting_id" := PStr (meeting_id request)]> d)))
      as [sent |] eqn:Hfit.
    + split; [| intros _; now exists sent].
      intros _. left. exists d. rewrite Hfit. split; [reflexivity | now exists sent].
    + split; [intros [sent H]; discriminate H |].
      intros [(d' & [= <-] & Hsome) | [[e H] _]]; [| discriminate H].
      rewrite Hfit in Hsome. now destruct Hsome.
  - destruct (attendees request) as [|a rest] eqn:Hatt.
    + rewrite fallback_raises in Hgen.
      unfold post_generate_brief, generate_brief, brief_with_id.
      rewrite rebuilt_attendees, Hatt, Hgen. simpl. split.
      * intros [sent H]. discriminate H.
      * intros [(d & H & _) | [_ Hne]]; [discriminate H | congruence].
    + destruct (fallback_fits t_fallback (meeting_id request) a rest)
        as (fb & sent & Hfb & Hfit).
      rewrite Hfb in Hgen. rewrite <- Hatt in Hgen.
      rewrite (route_on_dict BriefResponse _ _ _ _ _ fb Hgen), Hfit. split.
      * intros _. right. split; [now exists e | discriminate].
      * intros _. now exists sent.
Qed.

(** X15.  When the research fails and the request has an attendee, the
    caller of the route gets status 200 and the fallback brief with the
    identifier of the request: the response model accepts it and drops
    nothing from it. *)
Theorem endpoint_serves_fallback
    (messages_create : string -> outcome (list content_block))
    (json_loads : string -> outcome pyval)
    (request : BriefRequest) (t_prompt t_fallback : string) (e : exn) :
  attendees request <> [] ->
  research messages_create json_loads
    (prompt (meeting_title request) (meeting_time request)
       (attendee_info (attendees request)) t_prompt) = Raises e ->
  exists fb : gmap string pyval,
    generate_fallback_brief t_fallback (attendees request) = Returns (PDict fb)
    /\ post_generate_brief BriefResponse messages_create json_loads request t_prompt t_fallback
       = Answer200 (PDict (<["meeting_id" := PStr (meeting_id request)]> fb)).
Proof.
  intros Hne Hfail.
  pose proof (generate_meeting_brief_unfold messages_create json_loads
                (meeting_title request) (meeting_time request) (attendees request)
                t_prompt t_fallback) as Hgen.
  rewrite Hfail in Hgen.
  destruct (attendees request) as [|a rest] eqn:Hatt; [congruence |].
  eexists. split; [reflexivity |].
  rewrite <- Hatt in Hgen at 1.
  rewrite (route_on_dict BriefResponse _ _ _ _ _ _ Hgen).
  erewrite BriefResponse_accepts; try reflexivity.
  apply (forallb_fallback_profiles (a :: rest)).
Qed.

Lemma endpoint_serves_fallback_witness :
  exists fb : gmap string pyval,
    generate_fallback_brief "T2" [mk_attendee "a@acme.io" "A"] = Returns (PDict fb)
    /\ post_generate_brief BriefResponse provider_down Json.loads request_m1 "T1" "T2"
       = Answer200 (PDict (<["meeting_id" := PStr "m1"]> fb)).
Proof.
  apply (endpoint_serves_fallback provider_down Json.loads request_m1 "T1" "T2"
           (mk_exn "APIConnectionError" "Connection error.")).
  - discriminate.
  - reflexivity.
Defined.

(** ** The prompt *)

Lemma join_cons (sep x y : string) (l : list string) :
  Py.join sep (x :: y :: l) = x +:+ sep +:+ Py.join sep (y :: l).
Proof. reflexivity. Qed.




Lemma attendee_info_lines_eq (attendees : list Attendee) :
  attendee_info attendees = Py.join nl (map attendee_line attendees).
Proof. reflexivity. Qed.


Lemma split_append (s rest : string) (sep : ascii) :
  has_char sep s = false ->
  Py.split (s +:+ String sep rest) sep = s :: Py.split rest sep.
Proof.
  induction s as [|c s IH]; simpl.
  - now rewrite Ascii.eqb_refl.
  - destruct (Ascii.eqb c sep); [discriminate |]. intros H. now rewrite (IH H).
Qed.

(** Joining on a character and splitting on it gives the list back. *)
Lemma split_join (sep : ascii) (l : list string) :
  l <> [] ->
  (forall x, In x l -> has_char sep x = false) ->
  Py.split (Py.join (String sep EmptyString) l) sep = l.
Proof.
  induction l as [|x l IH]; [congruence |]. intros _ Hall.
  destruct l as [|y l].
  - simpl. apply split_single, Hall. now left.
  - rewrite join_cons.
    change (x +:+ String sep EmptyString +:+ Py.join (String sep EmptyString) (y :: l))
      with (x +:+ String sep (Py.join (String sep EmptyString) (y :: l))).
    rewrite split_append by (apply Hall; now left).
    f_equal. apply IH; [discriminate |]. intros z Hz. apply Hall. now right.
Qed.

(** X13.  The attendees take one line each in the prompt: as long as no
    name and no email holds a line feed, splitting the attendee block of
    a non-empty list on line feeds gives back the bullets, one per
    attendee and in order. *)
Theorem attendee_info_lines (attendees : list Attendee) :
  attendees <> [] ->
  (forall a, In a attendees ->
     has_char (ascii_of_nat 10) (name a) = false
     /\ has_char (ascii_of_nat 10) (email a) = false) ->
  Py.split (attendee_info attendees) (ascii_of_nat 10) = map attendee_line attendees.
Proof.
  intros Hne Hall. rewrite attendee_info_lines_eq. apply split_join.
  - destruct attendees; [congruence | discriminate].
  - intros x (a & <- & Hin)%in_map_iff. destruct (Hall a Hin) as [Hname Hemail].
    unfold attendee_line. rewrite !has_char_append, Hname, Hemail. reflexivity.
Qed.

Lemma attendee_info_lines_witness :
  Py.split (attendee_info [alice; bob]) (ascii_of_nat 10)
  = ["- Alice (alice@acme.io)"; "- Bob (bob@sub.example.com)"].
Proof.
  apply (attendee_info_lines [alice; bob]).
  - discriminate.
  - intros a [<- | [<- | []]]; split; reflexivity.
Defined.

(** ** The mock brief *)

(** X14.  The mock brief fails with [IndexError] on the empty list;
    otherwise it holds a single profile, with the name and the email of
    the first attendee, whatever the number of attendees, and it has the
    keys of the fallback brief, in the brief and in the profile. *)
Theorem mock_brief_shape (now : string) (a : Attendee) (rest : list Attendee) :
  generate_mock_brief now [] = Raises (IndexError "list index out of range")
  /\ exists mock profile fb,
       generate_mock_brief now (a :: rest) = Returns mock
       /\ entry "attendees" mock = Some (PList [profile])
       /\ entry "name" profile = Some (PStr (name a))
       /\ entry "email" profile = Some (PStr (email a))
       /\ keys profile = keys (fallback_profile a)
       /\ generate_fallback_brief now (a :: rest) = Returns fb
       /\ keys mock = keys fb.
Proof.
  split; [reflexivity |].
  do 3 eexists. split; [reflexivity |]. split; [reflexivity |].
  repeat split; reflexivity.
Qed.
